(** * Target localization engine of [zed_3d_targeting_auto_script.py]

    A shallow embedding of the range and bearing script: the three input
    handlers ([found_object_callback], [object_detected_callback],
    [get_depth_data_callback]), the driving handler
    ([object_targeting_callback]) and [cleanup_actions].

    Modelling conventions.
    - Python integers are [Z].  Python and numpy floats are idealised as
      exact rationals ([Q]); the one non-finite value the code can produce
      after ingest, the NaN that [np.mean] returns on an empty array, is
      kept explicit in [pyfloat].
    - [/] between integers is Python 3 true division.
    - The module-level globals [publish_enable], [np_depth_array_m] and
      [detect_boxes] are the fields of [State]; every handler is a function
      on [State].
    - A 2D numpy array is a list of rows.
    - The OpenCV image being drawn on is the input frame together with the
      list of drawing calls applied to it, in order. *)

From Stdlib Require Import ZArith QArith List Bool String Lia Lqa.
Import ListNotations.

Local Open Scope Z_scope.

(** ** Runtime user settings (lines 29-55 of the script) *)

Definition TARGET_BOX_REDUCTION_PERCENT : Z := 50.
Definition TARGET_DEPTH_METERS : Q := 3 # 10.
Definition TARGET_MIN_VALUES : Z := 10.
Definition FOV_VERT_DEG : Z := 70.
Definition FOV_HORZ_DEG : Z := 110.

(** ** Numbers *)

(** A float held by the script: NaN or a finite value. *)
Inductive pyfloat : Type :=
| NaN
| Num (q : Q).

(** [float(-999)], the value stored in [range_m] when no range is known. *)
Definition INVALID_RANGE : pyfloat := Num (-999 # 1).

(** Python's [int(x)] on a float: truncation toward zero. *)
Definition py_int (q : Q) : Z := Z.quot (Qnum q) (Z.pos (Qden q)).

Definition Qltb (x y : Q) : bool := negb (Qle_bool y x).

(** [a > b] and [a < b] where [b] may be NaN: every comparison with NaN is
    false. *)
Definition pf_gtb (a : Q) (b : pyfloat) : bool :=
  match b with
  | NaN => false
  | Num q => Qltb q a
  end.

Definition pf_ltb (a : Q) (b : pyfloat) : bool :=
  match b with
  | NaN => false
  | Num q => Qltb a q
  end.

Definition pf_add (a : pyfloat) (q : Q) : pyfloat :=
  match a with
  | NaN => NaN
  | Num x => Num (x + q)%Q
  end.

Definition pf_sub (a : pyfloat) (q : Q) : pyfloat :=
  match a with
  | NaN => NaN
  | Num x => Num (x - q)%Q
  end.

(** [x == -999] on a float; NaN equals nothing. *)
Definition pf_eqb (a : pyfloat) (q : Q) : bool :=
  match a with
  | NaN => false
  | Num x => Qeq_bool x q
  end.

(** ** Sequences and arrays *)

(** Python's adjustment of one slice bound against a length [n]. *)
Definition slice_index (n i : Z) : Z :=
  if i <? 0 then Z.max (i + n) 0 else Z.min i n.

(** [l[start:stop]]. *)
Definition py_slice {A : Type} (start stop : Z) (l : list A) : list A :=
  let n := Z.of_nat (List.length l) in
  let lo := slice_index n start in
  let hi := slice_index n stop in
  firstn (Z.to_nat (hi - lo)) (skipn (Z.to_nat lo) l).

(** The converted depth frame: rows of finite depths in metres. *)
Definition depth_matrix : Type := list (list Q).

(** [m[y0:y1, x0:x1]]. *)
Definition crop (m : depth_matrix) (y0 y1 x0 x1 : Z) : depth_matrix :=
  map (py_slice x0 x1) (py_slice y0 y1 m).

(** [a.flatten()]. *)
Definition flatten (m : depth_matrix) : list Q := List.concat m.

Definition Qsum (l : list Q) : Q := fold_right Qplus 0%Q l.

(** [np.mean] of a flat array: NaN on an empty one. *)
Definition np_mean_flat (l : list Q) : pyfloat :=
  match l with
  | [] => NaN
  | _ :: _ => Num (Qsum l / inject_Z (Z.of_nat (List.length l)))%Q
  end.

(** [np.mean(a)] of a 2D array: the mean over all its cells. *)
Definition np_mean (m : depth_matrix) : pyfloat := np_mean_flat (flatten m).

(** ** Messages *)

(** One pixel of an incoming depth frame, before conversion. *)
Inductive raw_depth : Type :=
| RawNaN
| RawInf (negative : bool)
| RawVal (q : Q).

Definition depth_frame : Type := list (list raw_depth).

(** darknet_ros_msgs/BoundingBox, the fields the script reads. *)
Record BoundingBox : Type := mkBox {
  Class : string;
  xmin : Z;
  ymin : Z;
  xmax : Z;
  ymax : Z
}.

(** darknet_ros_msgs/BoundingBoxes. *)
Record BoundingBoxes : Type := mkBoxes {
  bounding_boxes : list BoundingBox
}.

(** sensor_msgs/Image, the colour frame. *)
Record Image : Type := mkImage {
  height : Z;
  width : Z;
  data : list Z
}.

(** nepi_ros_interfaces/TargetLocalization. *)
Record TargetLocalization : Type := mkTarget {
  name : string;
  range_m : pyfloat;
  azimuth_deg : Q;
  elevation_deg : Q
}.

(** ** The image being annotated *)

Inductive draw_op : Type :=
| Rectangle (start_point end_point : Z * Z)
| PutLabel (text : string) (org : Z * Z)
| PutData (t_range_m : pyfloat) (horz_deg vert_deg : Q) (org : Z * Z).

Record Canvas : Type := mkCanvas {
  frame : Image;
  drawn : list draw_op
}.

(** [imgmsg_to_cv2(img_msg, "bgr8")]: nothing drawn yet. *)
Definition imgmsg_to_cv2 (img_msg : Image) : Canvas := mkCanvas img_msg [].

Definition draw (c : Canvas) (ops : list draw_op) : Canvas :=
  mkCanvas (frame c) (drawn c ++ ops).

(** What a publisher sends. *)
Inductive emission : Type :=
| TargetData (msg : TargetLocalization)
| TargetImage (img_out_msg : Canvas).

(** ** Globals *)

Record State : Type := mkState {
  publish_enable : bool;
  np_depth_array_m : option depth_matrix;
  detect_boxes : option BoundingBoxes
}.

(** The globals as the module initialises them (lines 60-66). *)
Definition initial_state : State := mkState true None None.

(** ** Input handlers *)

(** Lines 109-114. *)
Definition found_object_callback (count : Z) (st : State) : State :=
  if count =? 0
  then mkState (publish_enable st) (np_depth_array_m st) None
  else st.

(** Lines 117-120. *)
Definition object_detected_callback (bounding_box_msg : BoundingBoxes)
    (st : State) : State :=
  mkState (publish_enable st) (np_depth_array_m st) (Some bounding_box_msg).

(** Lines 131-133 on one pixel: NaN and both infinities become 0. *)
Definition sanitize (d : raw_depth) : Q :=
  match d with
  | RawNaN => 0%Q
  | RawInf _ => 0%Q
  | RawVal q => q
  end.

(** Lines 124-133. *)
Definition get_depth_data_callback (depth_data : depth_frame) (st : State)
    : State :=
  mkState (publish_enable st) (Some (map (map sanitize) depth_data))
          (detect_boxes st).

(** Lines 242-254: the only writer of [publish_enable]. *)
Definition cleanup_actions (st : State) : State :=
  mkState false (np_depth_array_m st) (detect_boxes st).

(** ** The driving handler, one box *)

(** Lines 154-155: [int(float(extent)*float(PERCENT)/100/2)]. *)
Definition box_reduction_pix (extent : Z) : Z :=
  py_int (inject_Z extent * inject_Z TARGET_BOX_REDUCTION_PERCENT
            / inject_Z 100 / inject_Z 2)%Q.

(** The reduced box of lines 156-159. *)
Record AdjBox : Type := mkAdj {
  xmin_adj : Z;
  ymin_adj : Z;
  xmax_adj : Z;
  ymax_adj : Z
}.

Definition reduce_box (box : BoundingBox) : AdjBox :=
  let box_reduction_y_pix := box_reduction_pix (ymax box - ymin box) in
  let box_reduction_x_pix := box_reduction_pix (xmax box - xmin box) in
  {| xmin_adj := xmin box + box_reduction_x_pix;
     ymin_adj := ymin box + box_reduction_y_pix;
     xmax_adj := xmax box - box_reduction_x_pix;
     ymax_adj := ymax box - box_reduction_y_pix |}.

(** Line 163. *)
Definition depth_box (m : depth_matrix) (a : AdjBox) : depth_matrix :=
  crop m (ymin_adj a) (ymax_adj a) (xmin_adj a) (xmax_adj a).

(** Lines 165-169: the samples left by the two successive masks. *)
Definition window_filter (depth_box_adj : depth_matrix) : list Q :=
  let depth_mean_val := np_mean depth_box_adj in
  let depth_array := flatten depth_box_adj in
  let min_filter :=
    pf_sub depth_mean_val (TARGET_DEPTH_METERS / inject_Z 2)%Q in
  let max_filter :=
    pf_add depth_mean_val (TARGET_DEPTH_METERS / inject_Z 2)%Q in
  let depth_array := filter (fun d => pf_gtb d min_filter) depth_array in
  filter (fun d => pf_ltb d max_filter) depth_array.

(** Lines 161-176. *)
Definition target_range (depth : option depth_matrix) (a : AdjBox)
    : pyfloat :=
  match depth with
  | Some m =>
      let depth_box_adj := depth_box m a in
      let depth_len := Z.of_nat (List.length (window_filter depth_box_adj)) in
      if depth_len >? TARGET_MIN_VALUES
      then np_mean depth_box_adj
      else INVALID_RANGE
  | None => INVALID_RANGE
  end.

(** Lines 178-179: [float(lo + (hi - lo) / 2)]. *)
Definition object_loc_pix (lo hi : Z) : Q :=
  (inject_Z lo + inject_Z (hi - lo) / inject_Z 2)%Q.

(** Lines 180-181: [float(loc - dim/2) / float(dim/2)]; [None] is the
    ZeroDivisionError Python raises when the divisor is [0.0]. *)
Definition ratio_from_center (loc : Q) (dim : Z) : option Q :=
  let half := (inject_Z dim / inject_Z 2)%Q in
  if Qeq_bool half 0 then None else Some ((loc - half) / half)%Q.

(** Lines 221-224. *)
Definition overlay_range (target_range_m : pyfloat) : pyfloat :=
  if pf_eqb target_range_m (-999 # 1) then NaN else target_range_m.

(** The body of the [for] loop, lines 151-233, without the publish of line
    197: the record built for the box and the drawing calls made for it.
    [None] when a division raised. *)
Definition targeting_box (st : State) (img_msg : Image) (box : BoundingBox)
    : option (TargetLocalization * list draw_op) :=
  let img_height := height img_msg in
  let img_width := width img_msg in
  let target_label := Class box in
  let a := reduce_box box in
  let target_range_m := target_range (np_depth_array_m st) a in
  let object_loc_y_pix := object_loc_pix (ymin box) (ymax box) in
  let object_loc_x_pix := object_loc_pix (xmin box) (xmax box) in
  match ratio_from_center object_loc_y_pix img_height with
  | None => None
  | Some object_loc_y_ratio_from_center =>
    match ratio_from_center object_loc_x_pix img_width with
    | None => None
    | Some object_loc_x_ratio_from_center =>
      let target_vert_angle_deg :=
        (- (object_loc_y_ratio_from_center
            * (inject_Z FOV_VERT_DEG / inject_Z 2)))%Q in
      let target_horz_angle_deg :=
        (object_loc_x_ratio_from_center
         * (inject_Z FOV_HORZ_DEG / inject_Z 2))%Q in
      let target_data_msg :=
        {| name := target_label;
           range_m := target_range_m;
           azimuth_deg := target_horz_angle_deg;
           elevation_deg := target_vert_angle_deg |} in
      let org_x := py_int object_loc_x_pix in
      let org_y := py_int object_loc_y_pix in
      Some (target_data_msg,
            [ Rectangle (xmin_adj a, ymin_adj a) (xmax_adj a, ymax_adj a);
              PutLabel (Class box) (org_x, org_y);
              PutData (overlay_range target_range_m)
                      target_horz_angle_deg target_vert_angle_deg
                      (org_x, org_y + 15) ])
    end
  end.

(** ** The driving handler, one colour frame *)

(** How a handler invocation ends. *)
Inductive outcome : Type :=
| Returned
| Raised.

(** Lines 196-197 and 237-238: a message goes out only if the flag is up. *)
Definition publish (st : State) (e : emission) : list emission :=
  if publish_enable st then [e] else [].

(** Lines 150-233: the loop over the boxes.  The second component is the
    annotated image, or [None] when a body raised. *)
Fixpoint targeting_boxes (st : State) (img_msg : Image) (cv2_image : Canvas)
    (boxes : list BoundingBox) : list emission * option Canvas :=
  match boxes with
  | [] => ([], Some cv2_image)
  | box :: rest =>
      match targeting_box st img_msg box with
      | None => ([], None)
      | Some (target_data_msg, ops) =>
          let '(out, c) :=
            targeting_boxes st img_msg (draw cv2_image ops) rest in
          (publish st (TargetData target_data_msg) ++ out, c)
      end
  end.

(** The boxes the loop of line 150 runs over; none when line 149 fails. *)
Definition held_boxes (st : State) : list BoundingBox :=
  match detect_boxes st with
  | Some msg => bounding_boxes msg
  | None => []
  end.

(** Lines 137-238.  The handler assigns to no global. *)
Definition object_targeting_callback (img_msg : Image) (st : State)
    : list emission * outcome :=
  let cv2_image := imgmsg_to_cv2 img_msg in
  match targeting_boxes st img_msg cv2_image (held_boxes st) with
  | (out, Some img_out_msg) =>
      (out ++ publish st (TargetImage img_out_msg), Returned)
  | (out, None) => (out, Raised)
  end.

(** ** Inputs arriving while a frame is being processed *)

(** The handlers other than the driving one.  rospy runs them on their own
    threads, so they may run between two statements of the driving
    handler.  Each is taken as a whole call; [Shutdown] is the assignment
    of line 246, after which [cleanup_actions] sleeps before it unregisters
    the publishers. *)
Inductive event : Type :=
| FoundObject (count : Z)
| ObjectDetected (bounding_box_msg : BoundingBoxes)
| DepthData (depth_data : depth_frame)
| Shutdown.

Definition handle (e : event) (st : State) : State :=
  match e with
  | FoundObject count => found_object_callback count st
  | ObjectDetected msg => object_detected_callback msg st
  | DepthData depth_data => get_depth_data_callback depth_data st
  | Shutdown => cleanup_actions st
  end.

Definition handle_all (es : list event) (st : State) : State :=
  fold_left (fun s e => handle e s) es st.

(** What happens while a frame is processed, in order: another handler
    runs, or the driving handler sends a message. *)
Inductive step : Type :=
| Handled (e : event)
| Published (m : emission).

Definition handled (es : list event) : list step := map Handled es.

(** The messages sent, in order. *)
Definition published (steps : list step) : list emission :=
  flat_map (fun s => match s with
                     | Handled _ => []
                     | Published m => [m]
                     end) steps.

(** The guarded publish of lines 196-197 and 237-238 as the two statements
    it is: the flag is the one read in [st_test]; the message, if the test
    passed, goes out after whatever ran in between. *)
Definition publish_step (st_test : State) (m : emission) : list step :=
  map Published (publish st_test m).

(** The body of the loop with the two reads of [np_depth_array_m] at their
    own moments: line 161 tests the matrix held in [st161], line 163 slices
    the one held in [st163], and every later line works on that slice.
    Subscripting [None] raises. *)
Definition targeting_box_during (st161 st163 : State) (img_msg : Image)
    (box : BoundingBox) : option (TargetLocalization * list draw_op) :=
  match np_depth_array_m st161 with
  | None => targeting_box st161 img_msg box
  | Some _ =>
      match np_depth_array_m st163 with
      | None => None
      | Some _ => targeting_box st163 img_msg box
      end
  end.

(** The loop and the final publish with other handlers interleaved at
    every place where the driving handler reads a global.  [arrivals] lists
    what runs at these places, in the order they are reached.  For a box:
    before line 161, between lines 161 and 163, before the test of line
    196, and between that test and the publish of line 197.  When no box is
    left: before the test of line 237, and between that test and the
    publish of line 238.  What is left of [arrivals] when the handler ends
    runs afterwards.  The list being iterated was fixed when the loop
    started.  The steps are returned in the order they happen, with the
    globals as every arrival has left them. *)
Fixpoint targeting_boxes_during (st : State) (img_msg : Image)
    (cv2_image : Canvas) (boxes : list BoundingBox)
    (arrivals : list (list event)) : State * list step * outcome :=
  match boxes with
  | [] =>
      let before_237 := hd [] arrivals in
      let before_238 := hd [] (tl arrivals) in
      let later := List.concat (tl (tl arrivals)) in
      let st237 := handle_all before_237 st in
      let st238 := handle_all before_238 st237 in
      (handle_all later st238,
       handled before_237 ++ handled before_238
         ++ publish_step st237 (TargetImage cv2_image) ++ handled later,
       Returned)
  | box :: rest =>
      let before_161 := hd [] arrivals in
      let before_163 := hd [] (tl arrivals) in
      let st161 := handle_all before_161 st in
      let st163 := handle_all before_163 st161 in
      match targeting_box_during st161 st163 img_msg box with
      | None =>
          let later := List.concat (tl (tl arrivals)) in
          (handle_all later st163,
           handled before_161 ++ handled before_163 ++ handled later,
           Raised)
      | Some (target_data_msg, ops) =>
          let before_196 := hd [] (tl (tl arrivals)) in
          let before_197 := hd [] (tl (tl (tl arrivals))) in
          let st196 := handle_all before_196 st163 in
          let st197 := handle_all before_197 st196 in
          let '(st2, steps, oc) :=
            targeting_boxes_during st197 img_msg (draw cv2_image ops) rest
                                   (tl (tl (tl (tl arrivals)))) in
          (st2,
           handled before_161 ++ handled before_163 ++ handled before_196
             ++ handled before_197
             ++ publish_step st196 (TargetData target_data_msg) ++ steps,
           oc)
      end
  end.

(** Lines 137-238 with other handlers interleaved.  Line 149 tests
    [detect_boxes] as it is when the frame arrives; if it is not [None],
    line 150 reads it again, after [hd [] arrivals] have run, and raises
    when it has become [None] meanwhile ([None] has no [bounding_boxes]);
    the loop then takes the rest of [arrivals].  If the test of line 149
    fails, [arrivals] are those of the final publish. *)
Definition object_targeting_during (arrivals : list (list event))
    (img_msg : Image) (st : State) : State * list step * outcome :=
  let cv2_image := imgmsg_to_cv2 img_msg in
  match detect_boxes st with
  | None => targeting_boxes_during st img_msg cv2_image [] arrivals
  | Some _ =>
      let before_150 := hd [] arrivals in
      let st150 := handle_all before_150 st in
      match detect_boxes st150 with
      | None =>
          let later := List.concat (tl arrivals) in
          (handle_all later st150, handled before_150 ++ handled later,
           Raised)
      | Some bounding_box_msg =>
          let '(st2, steps, oc) :=
            targeting_boxes_during st150 img_msg cv2_image
                                   (bounding_boxes bounding_box_msg)
                                   (tl arrivals) in
          (st2, handled before_150 ++ steps, oc)
      end
  end.

(** ** The node as a whole *)

Inductive input : Type :=
| Arrive (e : event)
| ColourFrame (img_msg : Image) (arrivals : list (list event)).

(** Everything published while the inputs are served in order, and the
    globals afterwards.  A handler that raised is dropped by rospy and the
    node goes on. *)
Fixpoint run (ins : list input) (st : State) : State * list emission :=
  match ins with
  | [] => (st, [])
  | Arrive e :: rest => run rest (handle e st)
  | ColourFrame img_msg arrivals :: rest =>
      let '(st1, steps, _) := object_targeting_during arrivals img_msg st in
      let '(st2, out2) := run rest st1 in
      (st2, published steps ++ out2)
  end.

(** ** Reading what was published *)

Definition published_targets (out : list emission) : list TargetLocalization :=
  flat_map (fun e => match e with
                     | TargetData msg => [msg]
                     | TargetImage _ => []
                     end) out.

Definition published_images (out : list emission) : list Canvas :=
  flat_map (fun e => match e with
                     | TargetData _ => []
                     | TargetImage c => [c]
                     end) out.

(** Height and width of a depth matrix (numpy's [shape]). *)
Definition shape (m : depth_matrix) : Z * Z :=
  (Z.of_nat (List.length m), Z.of_nat (List.length (hd [] m))).

(** ** Notions used in the statements *)

(** The centre of the unreduced box, as the mid-point of its edges. *)
Definition center_x (box : BoundingBox) : Q :=
  ((inject_Z (xmin box) + inject_Z (xmax box)) / inject_Z 2)%Q.

Definition center_y (box : BoundingBox) : Q :=
  ((inject_Z (ymin box) + inject_Z (ymax box)) / inject_Z 2)%Q.

(** Half of the depth window, [TARGET_DEPTH_METERS/2]. *)
Definition half_window : Q := (TARGET_DEPTH_METERS / inject_Z 2)%Q.

(** [msg] carries the bearing of [box] in [img_msg]: the formulas of lines
    180-183 at the centre of the unreduced box. *)
Definition bearing_reported (img_msg : Image) (box : BoundingBox)
    (msg : TargetLocalization) : Prop :=
  (azimuth_deg msg
   == (center_x box - inject_Z (width img_msg) / inject_Z 2)
      / (inject_Z (width img_msg) / inject_Z 2)
      * (inject_Z FOV_HORZ_DEG / inject_Z 2))%Q
  /\ (elevation_deg msg
      == - ((center_y box - inject_Z (height img_msg) / inject_Z 2)
            / (inject_Z (height img_msg) / inject_Z 2))
         * (inject_Z FOV_VERT_DEG / inject_Z 2))%Q.

(** The handler invocations, other than the driving one, that a sequence
    of inputs amounts to. *)
Fixpoint events_of (ins : list input) : list event :=
  match ins with
  | [] => []
  | Arrive e :: rest => e :: events_of rest
  | ColourFrame _ arrivals :: rest => List.concat arrivals ++ events_of rest
  end.

(** ** Sample inputs *)

(** A 640x480 colour frame. *)
Definition vga_frame : Image := mkImage 480 640 [].

(** A box centred in [vga_frame]. *)
Definition centred_box : BoundingBox := mkBox "person" 270 190 370 290.

(** An 8x8 box; its reduced box covers rows and columns 2 to 5. *)
Definition square_box : BoundingBox := mkBox "cup" 0 0 8 8.

(** A box of no width. *)
Definition thin_box : BoundingBox := mkBox "pole" 5 1 5 7.

(** 8x8 depth frames: 2 m everywhere; 2 m with one cell at 4 m inside the
    reduced [square_box]; columns alternating between 0 m and 0.3 m. *)
Definition flat_depth : depth_matrix := repeat (repeat (2 # 1) 8) 8.

Definition spiked_depth : depth_matrix :=
  let row := repeat (2 # 1) 8 in
  [ row; row; [2 # 1; 2 # 1; 4 # 1; 2 # 1; 2 # 1; 2 # 1; 2 # 1; 2 # 1];
    row; row; row; row; row ].

Definition striped_depth : depth_matrix :=
  repeat [0 # 1; 3 # 10; 0 # 1; 3 # 10; 0 # 1; 3 # 10; 0 # 1; 3 # 10] 8.

Definition holding (m : depth_matrix) (boxes : list BoundingBox) : State :=
  mkState true (Some m) (Some (mkBoxes boxes)).

(** ** Kinds of handler calls *)

(** Does the handler behind [e] assign to [detect_boxes]? *)
Definition writes_detections (e : event) : bool :=
  match e with
  | FoundObject count => count =? 0
  | ObjectDetected _ => true
  | DepthData _ => false
  | Shutdown => false
  end.

(** Does the handler behind [e] assign to [np_depth_array_m]? *)
Definition writes_depth (e : event) : bool :=
  match e with
  | DepthData _ => true
  | _ => false
  end.

Definition is_shutdown (e : event) : bool :=
  match e with
  | Shutdown => true
  | _ => false
  end.

(** Does [e] stand for one of the two detection handlers? *)
Definition is_detection_event (e : event) : bool :=
  match e with
  | FoundObject _ => true
  | ObjectDetected _ => true
  | DepthData _ => false
  | Shutdown => false
  end.

(** ** Start-up (lines 35-55 and 77-105) *)

Definition BASE_NAMESPACE : string := "/nepi/s2x/".

Definition IMAGE_INPUT_TOPIC : string :=
  (BASE_NAMESPACE ++ "zed2/zed_node/left/image_rect_color")%string.

Definition DEPTH_DATA_INPUT_TOPIC : string :=
  (BASE_NAMESPACE ++ "zed2/zed_node/depth/depth_registered")%string.

Definition START_CLASSIFIER_TOPIC : string :=
  (BASE_NAMESPACE ++ "start_classifier")%string.

Definition DETECTION_MODEL : string := "common_object_detection".

Definition DETECTION_THRESHOLD : Q := 1 # 2.

(** nepi_ros_interfaces/ClassifierSelection. *)
Record ClassifierSelection : Type := mkSelection {
  img_topic : string;
  classifier : string;
  detection_threshold : Q
}.

(** What start-up does, in order. *)
Inductive action : Type :=
| PrintLine (text : string)
| LogInfo (text : string)
| Sleep (seconds : Z)
| SignalShutdown (reason : string)
| StartClassifier (classifier_selection : ClassifierSelection).

(** An entry of [rospy.get_published_topics]: topic name and type. *)
Definition topic_entry : Type := (string * string)%type.

(** [topic_to_connect in topic_list]. *)
Definition topic_listed (topic_to_connect : topic_entry)
    (topic_list : list topic_entry) : bool :=
  existsb (fun t => String.eqb (fst t) (fst topic_to_connect)
                    && String.eqb (snd t) (snd topic_to_connect))
          topic_list.

(** Lines 77-105, given what [rospy.get_published_topics] returned. *)
Definition initialize_actions (topic_list : list topic_entry) : list action :=
  [ PrintLine "";
    LogInfo ("Connecting to ROS Topic " ++ IMAGE_INPUT_TOPIC) ]
  ++ (if topic_listed (IMAGE_INPUT_TOPIC, "sensor_msgs/Image"%string)
                      topic_list
      then [ PrintLine "Camera Topic found, starting initializing process";
             PrintLine "Camera Initialization Complete" ]
      else [ PrintLine "!!!!! Camera topic not found, shutting down";
             Sleep 1 ])
  ++ [ LogInfo ("Connecting to ROS Topic " ++ DEPTH_DATA_INPUT_TOPIC) ]
  ++ (if topic_listed (DEPTH_DATA_INPUT_TOPIC, "sensor_msgs/Image"%string)
                      topic_list
      then [ PrintLine "Depth Topic found, starting initializing process";
             PrintLine "Depth Initialization Complete" ]
      else [ PrintLine "!!!!! Depth topic not found, shutting down";
             Sleep 1;
             SignalShutdown "Camera topic not found" ])
  ++ [ Sleep 1;
       PrintLine ("Starting target detector: " ++ START_CLASSIFIER_TOPIC);
       StartClassifier (mkSelection IMAGE_INPUT_TOPIC DETECTION_MODEL
                                    DETECTION_THRESHOLD);
       PrintLine "Detector initialization complete" ].

Definition is_signal_shutdown (a : action) : bool :=
  match a with
  | SignalShutdown _ => true
  | _ => false
  end.

Definition is_start_classifier (a : action) : bool :=
  match a with
  | StartClassifier _ => true
  | _ => false
  end.

(** A row of twenty depths, 2 m but for one at 2.1 m. *)
Definition close_depths : depth_matrix :=
  [ (2 # 1) :: (21 # 10) :: repeat (2 # 1) 18 ].


(** A box one pixel wide, and a 48x8 depth frame of 2 m. *)
Definition sliver_box : BoundingBox := mkBox "mast" 3 0 4 48.

Definition tall_depth : depth_matrix := repeat (repeat (2 # 1) 8) 48.

(** * Arithmetic and list facts *)

Lemma Qltb_lt (x y : Q) : Qltb x y = true <-> (x < y)%Q.
Proof.
  unfold Qltb. rewrite negb_true_iff.
  split; intro H.
  - apply Qnot_le_lt. intro Hle. apply Qle_bool_iff in Hle. congruence.
  - destruct (Qle_bool y x) eqn:E; [|reflexivity].
    apply Qle_bool_iff in E. exfalso. apply (Qlt_not_le _ _ H E).
Qed.

Lemma half_nonzero (dim : Z) :
  dim <> 0 -> Qeq_bool (inject_Z dim / inject_Z 2) 0 = false.
Proof.
  intro Hd. destruct (Qeq_bool _ _) eqn:E; [|reflexivity].
  apply Qeq_bool_eq in E. unfold Qeq in E. cbn in E. lia.
Qed.

Lemma ratio_from_center_defined (loc : Q) (dim : Z) :
  dim <> 0 ->
  ratio_from_center loc dim
  = Some ((loc - inject_Z dim / inject_Z 2) / (inject_Z dim / inject_Z 2))%Q.
Proof.
  intro Hd. unfold ratio_from_center. now rewrite half_nonzero.
Qed.

Lemma filter_length_le {A : Type} (f : A -> bool) (l : list A) :
  (List.length (filter f l) <= List.length l)%nat.
Proof.
  induction l as [|a l IH]; cbn; [lia|]. destruct (f a); cbn; lia.
Qed.

Lemma filter_filter {A : Type} (f g : A -> bool) (l : list A) :
  filter g (filter f l) = filter (fun a => f a && g a) l.
Proof.
  induction l as [|a l IH]; cbn; [reflexivity|].
  destruct (f a); cbn; [destruct (g a)|]; now rewrite IH.
Qed.

Lemma window_filter_length_le (sub : depth_matrix) :
  (List.length (window_filter sub) <= List.length (flatten sub))%nat.
Proof.
  unfold window_filter.
  etransitivity; [apply filter_length_le|apply filter_length_le].
Qed.

Lemma np_mean_flat_sum (l : list Q) :
  l <> [] ->
  exists mu, np_mean_flat l = Num mu /\
             (mu * inject_Z (Z.of_nat (List.length l)) == Qsum l)%Q.
Proof.
  intro Hl. destruct l as [|a l]; [congruence|].
  eexists; split; [reflexivity|].
  field. intro H. unfold Qeq in H. cbn in H. lia.
Qed.

(** The float expression of lines 154-155 is the truncated quarter of the
    extent. *)
Lemma box_reduction_pix_quot (extent : Z) :
  box_reduction_pix extent = Z.quot (extent * 25) 100.
Proof.
  unfold box_reduction_pix, py_int, TARGET_BOX_REDUCTION_PERCENT. cbn.
  replace (extent * 50 * 1 * 1) with (extent * 25 * 2) by lia.
  change 200 with (100 * 2).
  apply Z.quot_mul_cancel_r; lia.
Qed.

Lemma py_slice_same {A : Type} (i : Z) (l : list A) : py_slice i i l = [].
Proof. unfold py_slice. now rewrite Z.sub_diag. Qed.

Lemma concat_all_nil {A : Type} (ls : list (list A)) :
  Forall (fun l => l = []) ls -> List.concat ls = [].
Proof.
  induction 1 as [|l ls Hl _ IH]; [reflexivity|]. cbn. now rewrite Hl, IH.
Qed.

Lemma crop_zero_area (m : depth_matrix) (y0 y1 x0 x1 : Z) :
  x0 = x1 \/ y0 = y1 -> flatten (crop m y0 y1 x0 x1) = [].
Proof.
  unfold flatten, crop. intros [-> | ->].
  - apply concat_all_nil, Forall_forall. intros l Hl.
    apply in_map_iff in Hl. destruct Hl as (r & <- & _).
    apply py_slice_same.
  - now rewrite py_slice_same.
Qed.

(** * The range of one box *)

Lemma target_range_cases (m : depth_matrix) (a : AdjBox) :
  (TARGET_MIN_VALUES < Z.of_nat (List.length (window_filter (depth_box m a)))
   -> target_range (Some m) a = np_mean (depth_box m a))
  /\ (Z.of_nat (List.length (window_filter (depth_box m a)))
      <= TARGET_MIN_VALUES
      -> target_range (Some m) a = INVALID_RANGE).
Proof.
  unfold target_range.
  destruct (Z.gtb_spec
              (Z.of_nat (List.length (window_filter (depth_box m a))))
              TARGET_MIN_VALUES); split; intros; (reflexivity || lia).
Qed.

Lemma target_range_empty (m : depth_matrix) (a : AdjBox) :
  flatten (depth_box m a) = [] ->
  window_filter (depth_box m a) = []
  /\ target_range (Some m) a = INVALID_RANGE.
Proof.
  intro He.
  assert (Hw : window_filter (depth_box m a) = []).
  { pose proof (window_filter_length_le (depth_box m a)) as Hle.
    rewrite He in Hle. cbn in Hle.
    destruct (window_filter (depth_box m a)); [reflexivity|cbn in Hle; lia]. }
  split; [exact Hw|].
  apply target_range_cases. rewrite Hw. cbn. unfold TARGET_MIN_VALUES. lia.
Qed.

(** With a frame of non-zero height and width no division raises, and the
    record built for a box is made of these four values. *)
Lemma targeting_box_defined (st : State) (img_msg : Image)
    (box : BoundingBox) :
  height img_msg <> 0 -> width img_msg <> 0 ->
  exists msg ops,
    targeting_box st img_msg box = Some (msg, ops)
    /\ name msg = Class box
    /\ range_m msg = target_range (np_depth_array_m st) (reduce_box box)
    /\ azimuth_deg msg
       = ((object_loc_pix (xmin box) (xmax box)
           - inject_Z (width img_msg) / inject_Z 2)
          / (inject_Z (width img_msg) / inject_Z 2)
          * (inject_Z FOV_HORZ_DEG / inject_Z 2))%Q
    /\ elevation_deg msg
       = (- ((object_loc_pix (ymin box) (ymax box)
              - inject_Z (height img_msg) / inject_Z 2)
             / (inject_Z (height img_msg) / inject_Z 2)
             * (inject_Z FOV_VERT_DEG / inject_Z 2)))%Q.
Proof.
  intros Hh Hw. unfold targeting_box.
  rewrite (ratio_from_center_defined _ _ Hh).
  rewrite (ratio_from_center_defined _ _ Hw).
  eexists. eexists. repeat split.
Qed.

(** * Box reduction *)

(** C8: the reduced box is the box moved inward, on each axis and by the
    same amount on both sides, by the truncation of 25 percent (half of
    the 50 percent reduction) of the box's extent on that axis; the box
    (270,190)-(370,290) becomes (295,215)-(345,265). *)
Theorem reduce_box_symmetric :
  (forall box : BoundingBox,
     let rx := Z.quot ((xmax box - xmin box) * 25) 100 in
     let ry := Z.quot ((ymax box - ymin box) * 25) 100 in
     reduce_box box
     = mkAdj (xmin box + rx) (ymin box + ry) (xmax box - rx) (ymax box - ry))
  /\ reduce_box (mkBox "person" 270 190 370 290) = mkAdj 295 215 345 265.
Proof.
  split; [|reflexivity].
  intro box. unfold reduce_box. cbv zeta.
  now rewrite !box_reduction_pix_quot.
Qed.

(** * Range estimation *)

(** C1: while a depth matrix is held, the range reported for a box is the
    mean of all the cells of the reduced region (their sum over their
    number) when more than [TARGET_MIN_VALUES] samples pass the window
    filter, and -999 otherwise. *)
Theorem range_is_unfiltered_mean (st : State) (img_msg : Image)
    (box : BoundingBox) (m : depth_matrix) :
  np_depth_array_m st = Some m ->
  height img_msg <> 0 -> width img_msg <> 0 ->
  exists msg ops,
    targeting_box st img_msg box = Some (msg, ops)
    /\ (TARGET_MIN_VALUES
        < Z.of_nat (List.length (window_filter (depth_box m (reduce_box box))))
        -> range_m msg = np_mean (depth_box m (reduce_box box))
           /\ exists mu,
               range_m msg = Num mu
               /\ (mu * inject_Z
                          (Z.of_nat
                             (List.length
                                (flatten (depth_box m (reduce_box box)))))
                   == Qsum (flatten (depth_box m (reduce_box box))))%Q)
    /\ (Z.of_nat (List.length (window_filter (depth_box m (reduce_box box))))
        <= TARGET_MIN_VALUES
        -> range_m msg = INVALID_RANGE).
Proof.
  intros Hm Hh Hw.
  destruct (targeting_box_defined st img_msg box Hh Hw)
    as (msg & ops & Hbox & _ & Hr & _).
  exists msg, ops. rewrite Hr, Hm.
  destruct (target_range_cases m (reduce_box box)) as [Hvalid Hinvalid].
  split; [exact Hbox|]. split; [|exact Hinvalid].
  intro Hmany. rewrite (Hvalid Hmany). split; [reflexivity|].
  apply np_mean_flat_sum. intro He.
  pose proof (window_filter_length_le (depth_box m (reduce_box box))) as Hle.
  rewrite He in Hle. cbn in Hle. unfold TARGET_MIN_VALUES in Hmany. lia.
Qed.

Lemma range_is_unfiltered_mean_witness :
  exists msg ops,
    targeting_box (holding spiked_depth [square_box]) vga_frame square_box
    = Some (msg, ops)
    /\ (TARGET_MIN_VALUES
        < Z.of_nat (List.length
                      (window_filter
                         (depth_box spiked_depth (reduce_box square_box))))
        -> range_m msg = np_mean (depth_box spiked_depth (reduce_box square_box))
           /\ exists mu,
               range_m msg = Num mu
               /\ (mu * inject_Z
                          (Z.of_nat
                             (List.length
                                (flatten
                                   (depth_box spiked_depth
                                              (reduce_box square_box)))))
                   == Qsum (flatten (depth_box spiked_depth
                                               (reduce_box square_box))))%Q)
    /\ (Z.of_nat (List.length
                    (window_filter
                       (depth_box spiked_depth (reduce_box square_box))))
        <= TARGET_MIN_VALUES
        -> range_m msg = INVALID_RANGE).
Proof.
  apply (range_is_unfiltered_mean (holding spiked_depth [square_box])
                                  vga_frame square_box spiked_depth).
  - reflexivity.
  - discriminate.
  - discriminate.
Defined.

(** On [spiked_depth] fifteen of the sixteen samples pass the filter; the
    range reported is the mean of the sixteen (17/8), not that of the
    fifteen (2). *)
Example range_keeps_the_outlier :
  exists msg ops,
    targeting_box (holding spiked_depth [square_box]) vga_frame square_box
    = Some (msg, ops)
    /\ List.length (window_filter
                      (depth_box spiked_depth (reduce_box square_box)))
       = 15%nat
    /\ pf_eqb (range_m msg) (17 # 8) = true
    /\ pf_eqb (np_mean_flat
                 (window_filter
                    (depth_box spiked_depth (reduce_box square_box))))
              (2 # 1) = true.
Proof. eexists. eexists. repeat split. Qed.

(** * The depth window

    Against C3 as stated.  In the reduced [square_box] of [striped_depth]
    the mean is 0.15 and each of the sixteen samples sits on an end of
    [0.15 - 0.15, 0.15 + 0.15]: all lie in the closed interval, none is
    kept, and the range is -999. *)
Lemma closed_window_samples_discarded :
  pf_eqb (np_mean (depth_box striped_depth (reduce_box square_box))) (3 # 20)
  = true
  /\ List.length (flatten (depth_box striped_depth (reduce_box square_box)))
     = 16%nat
  /\ Forall (fun d => ((3 # 20) - half_window <= d)%Q
                      /\ (d <= (3 # 20) + half_window)%Q)
            (flatten (depth_box striped_depth (reduce_box square_box)))
  /\ window_filter (depth_box striped_depth (reduce_box square_box)) = []
  /\ target_range (Some striped_depth) (reduce_box square_box)
     = INVALID_RANGE.
Proof.
  repeat split; try reflexivity.
  vm_compute flatten.
  repeat constructor; unfold Qle; cbn; lia.
Qed.

(** C3, amended: the samples kept are exactly those strictly between
    [depth_mean - TARGET_DEPTH_METERS/2] and
    [depth_mean + TARGET_DEPTH_METERS/2], with their multiplicity; a sample
    equal to either end is discarded. *)
Theorem window_filter_open_interval (sub : depth_matrix) (mu : Q) :
  np_mean sub = Num mu ->
  window_filter sub
  = filter (fun d => Qltb (mu - half_window) d && Qltb d (mu + half_window))
           (flatten sub)
  /\ (forall d,
        In d (window_filter sub)
        <-> In d (flatten sub)
            /\ (mu - half_window < d)%Q /\ (d < mu + half_window)%Q)
  /\ (forall d,
        (d == mu - half_window)%Q \/ (d == mu + half_window)%Q ->
        ~ In d (window_filter sub)).
Proof.
  intro Hmu.
  assert (Heq : window_filter sub
                = filter (fun d => Qltb (mu - half_window) d
                                   && Qltb d (mu + half_window))
                         (flatten sub)).
  { unfold window_filter. rewrite Hmu. cbn [pf_sub pf_add].
    rewrite filter_filter. reflexivity. }
  assert (Hin : forall d,
             In d (window_filter sub)
             <-> In d (flatten sub)
                 /\ (mu - half_window < d)%Q /\ (d < mu + half_window)%Q).
  { intro d. rewrite Heq, filter_In, andb_true_iff, !Qltb_lt. tauto. }
  split; [exact Heq|]. split; [exact Hin|].
  intros d Hd Hkept. apply Hin in Hkept. destruct Hkept as (_ & Hlo & Hhi).
  destruct Hd as [Hd | Hd]; rewrite Hd in *.
  - apply (Qlt_irrefl _ Hlo).
  - apply (Qlt_irrefl _ Hhi).
Qed.

Lemma window_filter_open_interval_witness :
  np_mean [[0 # 1; 3 # 10]]%Q = Num (3 # 20)
  /\ ~ In (3 # 10)%Q (window_filter [[0 # 1; 3 # 10]]%Q).
Proof.
  split; [reflexivity|].
  destruct (window_filter_open_interval [[0 # 1; 3 # 10]]%Q (3 # 20)%Q eq_refl)
    as (_ & _ & H).
  apply H. right. reflexivity.
Defined.

(** * Degenerate boxes *)

Lemma reduced_extent_zero (extent : Z) :
  extent - 2 * box_reduction_pix extent = 0 <-> extent = 0.
Proof.
  rewrite box_reduction_pix_quot.
  pose proof (Z.quot_rem' (extent * 25) 100) as Hqr.
  split; [|intros ->; reflexivity].
  intro Hz.
  destruct (Z.le_gt_cases 0 extent) as [Hpos | Hneg].
  - pose proof (Z.rem_bound_pos (extent * 25) 100 ltac:(lia) ltac:(lia)). lia.
  - pose proof (Z.rem_bound_pos_neg (extent * 25) 100 ltac:(lia) ltac:(lia)).
    lia.
Qed.

(** Against C6 as stated.  [sliver_box] is one pixel wide; its reduced box
    keeps that one column over 24 rows of [tall_depth], and the box is
    ranged at 2 m. *)
Lemma one_pixel_wide_box_is_ranged :
  xmax sliver_box - xmin sliver_box = 1
  /\ xmax_adj (reduce_box sliver_box) - xmin_adj (reduce_box sliver_box) = 1
  /\ List.length (flatten (depth_box tall_depth (reduce_box sliver_box)))
     = 24%nat
  /\ exists msg ops,
       targeting_box (holding tall_depth [sliver_box]) vga_frame sliver_box
       = Some (msg, ops)
       /\ pf_eqb (range_m msg) (2 # 1) = true
       /\ pf_eqb (range_m msg) (-999 # 1) = false.
Proof.
  repeat split.
  eexists. eexists. repeat split.
Qed.

(** C6, amended: the reduced box has no width, or no height, exactly when
    the box itself has none ([xmin = xmax], or [ymin = ymax]): the
    reduction never takes a whole axis and a box one pixel wide keeps its
    column.  For such a box the region cut out of the depth matrix is
    empty, its mean is NaN, no sample passes the filter, and the record
    carries -999, never NaN. *)
Theorem zero_extent_box_range_invalid (st : State) (img_msg : Image)
    (box : BoundingBox) :
  xmin_adj (reduce_box box) = xmax_adj (reduce_box box)
  \/ ymin_adj (reduce_box box) = ymax_adj (reduce_box box) ->
  height img_msg <> 0 -> width img_msg <> 0 ->
  (xmin_adj (reduce_box box) = xmax_adj (reduce_box box)
   <-> xmin box = xmax box)
  /\ (ymin_adj (reduce_box box) = ymax_adj (reduce_box box)
      <-> ymin box = ymax box)
  /\ exists msg ops,
       targeting_box st img_msg box = Some (msg, ops)
       /\ range_m msg = INVALID_RANGE
       /\ range_m msg <> NaN
       /\ forall m,
            np_depth_array_m st = Some m ->
            flatten (depth_box m (reduce_box box)) = []
            /\ np_mean (depth_box m (reduce_box box)) = NaN
            /\ window_filter (depth_box m (reduce_box box)) = [].
Proof.
  intros Hzero Hh Hw.
  split; [|split].
  - unfold reduce_box. cbn [xmin_adj xmax_adj].
    pose proof (reduced_extent_zero (xmax box - xmin box)). lia.
  - unfold reduce_box. cbn [ymin_adj ymax_adj].
    pose proof (reduced_extent_zero (ymax box - ymin box)). lia.
  - destruct (targeting_box_defined st img_msg box Hh Hw)
      as (msg & ops & Hbox & _ & Hr & _).
    exists msg, ops. split; [exact Hbox|].
    assert (Hempty : forall m, flatten (depth_box m (reduce_box box)) = []).
    { intro m. apply crop_zero_area. exact Hzero. }
    assert (Hrange : range_m msg = INVALID_RANGE).
    { rewrite Hr. destruct (np_depth_array_m st) as [m|]; [|reflexivity].
      apply target_range_empty, Hempty. }
    split; [exact Hrange|]. split; [rewrite Hrange; discriminate|].
    intros m _. split; [apply Hempty|]. split.
    + unfold np_mean. now rewrite Hempty.
    + apply target_range_empty, Hempty.
Qed.

Lemma zero_extent_box_range_invalid_witness :
  (xmin_adj (reduce_box thin_box) = xmax_adj (reduce_box thin_box)
   <-> xmin thin_box = xmax thin_box)
  /\ (ymin_adj (reduce_box thin_box) = ymax_adj (reduce_box thin_box)
      <-> ymin thin_box = ymax thin_box)
  /\ exists msg ops,
       targeting_box (holding flat_depth [thin_box]) vga_frame thin_box
       = Some (msg, ops)
       /\ range_m msg = INVALID_RANGE
       /\ range_m msg <> NaN
       /\ forall m,
            np_depth_array_m (holding flat_depth [thin_box]) = Some m ->
            flatten (depth_box m (reduce_box thin_box)) = []
            /\ np_mean (depth_box m (reduce_box thin_box)) = NaN
            /\ window_filter (depth_box m (reduce_box thin_box)) = [].
Proof.
  apply (zero_extent_box_range_invalid (holding flat_depth [thin_box])
                                       vga_frame thin_box).
  - left. reflexivity.
  - discriminate.
  - discriminate.
Defined.

(** * Bearings *)

Lemma object_loc_pix_center_x (box : BoundingBox) :
  (object_loc_pix (xmin box) (xmax box) == center_x box)%Q.
Proof.
  unfold object_loc_pix, center_x, Qeq. cbn. lia.
Qed.

Lemma object_loc_pix_center_y (box : BoundingBox) :
  (object_loc_pix (ymin box) (ymax box) == center_y box)%Q.
Proof.
  unfold object_loc_pix, center_y, Qeq. cbn. lia.
Qed.

Lemma inject_Z_nonzero (z : Z) : z <> 0 -> ~ (inject_Z z == 0)%Q.
Proof. intros Hz H. unfold Qeq in H. cbn in H. lia. Qed.

(** C4: for a frame of height H and width W and a box of centre (cx, cy),
    azimuth is ((cx - W/2)/(W/2)) * (FOV_HORZ_DEG/2) and elevation is
    -((cy - H/2)/(H/2)) * (FOV_VERT_DEG/2); each is a constant times the
    pixel offset from the image centre, and is 0 when that offset is 0. *)
Theorem bearing_formulas (st : State) (img_msg : Image) (box : BoundingBox) :
  height img_msg <> 0 -> width img_msg <> 0 ->
  exists msg ops,
    targeting_box st img_msg box = Some (msg, ops)
    /\ (azimuth_deg msg
        == (center_x box - inject_Z (width img_msg) / inject_Z 2)
           / (inject_Z (width img_msg) / inject_Z 2)
           * (inject_Z FOV_HORZ_DEG / inject_Z 2))%Q
    /\ (elevation_deg msg
        == - ((center_y box - inject_Z (height img_msg) / inject_Z 2)
              / (inject_Z (height img_msg) / inject_Z 2))
           * (inject_Z FOV_VERT_DEG / inject_Z 2))%Q
    /\ (azimuth_deg msg
        == inject_Z FOV_HORZ_DEG / inject_Z (width img_msg)
           * (center_x box - inject_Z (width img_msg) / inject_Z 2))%Q
    /\ (elevation_deg msg
        == - (inject_Z FOV_VERT_DEG / inject_Z (height img_msg))
           * (center_y box - inject_Z (height img_msg) / inject_Z 2))%Q
    /\ ((center_x box == inject_Z (width img_msg) / inject_Z 2)%Q ->
        (azimuth_deg msg == 0)%Q)
    /\ ((center_y box == inject_Z (height img_msg) / inject_Z 2)%Q ->
        (elevation_deg msg == 0)%Q).
Proof.
  intros Hh Hw.
  destruct (targeting_box_defined st img_msg box Hh Hw)
    as (msg & ops & Hbox & _ & _ & Haz & Hel).
  exists msg, ops. split; [exact Hbox|].
  pose proof (inject_Z_nonzero _ Hh) as Hh'.
  pose proof (inject_Z_nonzero _ Hw) as Hw'.
  assert (H2 : ~ (inject_Z 2 == 0)%Q) by (apply inject_Z_nonzero; lia).
  assert (Hazl : (azimuth_deg msg
        == inject_Z FOV_HORZ_DEG / inject_Z (width img_msg)
           * (center_x box - inject_Z (width img_msg) / inject_Z 2))%Q).
  { rewrite Haz, object_loc_pix_center_x. field. auto. }
  assert (Hell : (elevation_deg msg
        == - (inject_Z FOV_VERT_DEG / inject_Z (height img_msg))
           * (center_y box - inject_Z (height img_msg) / inject_Z 2))%Q).
  { rewrite Hel, object_loc_pix_center_y. field. auto. }
  repeat split.
  - rewrite Haz, object_loc_pix_center_x. reflexivity.
  - rewrite Hel, object_loc_pix_center_y. field. auto.
  - exact Hazl.
  - exact Hell.
  - intro Hc. rewrite Hazl, Hc. ring.
  - intro Hc. rewrite Hell, Hc. ring.
Qed.

Lemma bearing_formulas_witness :
  exists msg ops,
    targeting_box (holding flat_depth [centred_box]) vga_frame centred_box
    = Some (msg, ops)
    /\ (azimuth_deg msg == 0)%Q
    /\ (elevation_deg msg == 0)%Q.
Proof.
  destruct (bearing_formulas (holding flat_depth [centred_box]) vga_frame
                             centred_box)
    as (msg & ops & Hbox & _ & _ & _ & _ & Hx & Hy);
    [discriminate | discriminate |].
  exists msg, ops. split; [exact Hbox|].
  split; [apply Hx | apply Hy]; now vm_compute.
Defined.

(** * One colour frame *)

Lemma targeting_box_record (st : State) (img_msg : Image)
    (box : BoundingBox) (msg : TargetLocalization) (ops : list draw_op) :
  targeting_box st img_msg box = Some (msg, ops) ->
  name msg = Class box
  /\ range_m msg = target_range (np_depth_array_m st) (reduce_box box)
  /\ (azimuth_deg msg
      == (center_x box - inject_Z (width img_msg) / inject_Z 2)
         / (inject_Z (width img_msg) / inject_Z 2)
         * (inject_Z FOV_HORZ_DEG / inject_Z 2))%Q
  /\ (elevation_deg msg
      == - ((center_y box - inject_Z (height img_msg) / inject_Z 2)
            / (inject_Z (height img_msg) / inject_Z 2))
         * (inject_Z FOV_VERT_DEG / inject_Z 2))%Q.
Proof.
  unfold targeting_box.
  destruct (ratio_from_center _ (height img_msg)) as [ry|] eqn:Ey;
    [|discriminate].
  destruct (ratio_from_center _ (width img_msg)) as [rx|] eqn:Ex;
    [|discriminate].
  intro H. injection H as <- _. cbn.
  unfold ratio_from_center in Ey, Ex.
  destruct (Qeq_bool (inject_Z (height img_msg) / inject_Z 2) 0);
    [discriminate|].
  destruct (Qeq_bool (inject_Z (width img_msg) / inject_Z 2) 0);
    [discriminate|].
  injection Ey as <-. injection Ex as <-.
  repeat split.
  - now rewrite object_loc_pix_center_x.
  - rewrite object_loc_pix_center_y.
    unfold Qdiv. ring.
Qed.

Lemma published_targets_app (a b : list emission) :
  published_targets (a ++ b) = published_targets a ++ published_targets b.
Proof. apply flat_map_app. Qed.

Lemma published_images_app (a b : list emission) :
  published_images (a ++ b) = published_images a ++ published_images b.
Proof. apply flat_map_app. Qed.

(** With a frame of non-zero size the loop runs to its end, draws on the
    incoming frame, and publishes one record per box when the flag is up. *)
Lemma targeting_boxes_defined (st : State) (img_msg : Image)
    (boxes : list BoundingBox) :
  height img_msg <> 0 -> width img_msg <> 0 ->
  forall cv2_image,
  exists out c,
    targeting_boxes st img_msg cv2_image boxes = (out, Some c)
    /\ frame c = frame cv2_image
    /\ published_images out = []
    /\ (publish_enable st = true ->
        Forall2 (fun box msg =>
                   exists ops, targeting_box st img_msg box = Some (msg, ops))
                boxes (published_targets out)).
Proof.
  intros Hh Hw. induction boxes as [|box rest IH]; intro cv2_image.
  - exists [], cv2_image. cbn. repeat split. intros _. constructor.
  - destruct (targeting_box_defined st img_msg box Hh Hw)
      as (msg & ops & Hbox & _).
    destruct (IH (draw cv2_image ops)) as (out & c & Hrest & Hf & Hi & Ht).
    cbn [targeting_boxes]. rewrite Hbox, Hrest.
    exists (publish st (TargetData msg) ++ out), c.
    split; [reflexivity|]. split; [exact Hf|].
    unfold publish. destruct (publish_enable st); cbn.
    + split; [exact Hi|]. intros _. constructor; [now exists ops|auto].
    + split; [exact Hi|]. discriminate.
Qed.

Lemma callback_defined (st : State) (img_msg : Image) :
  height img_msg <> 0 -> width img_msg <> 0 ->
  snd (object_targeting_callback img_msg st) = Returned
  /\ (publish_enable st = true ->
      Forall2 (fun box msg =>
                 exists ops, targeting_box st img_msg box = Some (msg, ops))
              (held_boxes st)
              (published_targets (fst (object_targeting_callback img_msg st)))).
Proof.
  intros Hh Hw. unfold object_targeting_callback.
  destruct (targeting_boxes_defined st img_msg (held_boxes st) Hh Hw
                                    (imgmsg_to_cv2 img_msg))
    as (out & c & Hrun & _ & _ & Ht).
  rewrite Hrun. cbn. split; [reflexivity|].
  intro Hen. rewrite published_targets_app.
  unfold publish. rewrite Hen. cbn. rewrite app_nil_r. auto.
Qed.


(** * Missing and mismatched depth *)

(** C5: with no depth matrix held, every box still gets its record, whose
    range is -999 whatever the box, and whose bearing is computed. *)
Theorem no_depth_range_invalid (st : State) (img_msg : Image) :
  np_depth_array_m st = None ->
  publish_enable st = true ->
  height img_msg <> 0 -> width img_msg <> 0 ->
  snd (object_targeting_callback img_msg st) = Returned
  /\ Forall2
       (fun box msg =>
          name msg = Class box
          /\ range_m msg = INVALID_RANGE
          /\ bearing_reported img_msg box msg)
       (held_boxes st)
       (published_targets (fst (object_targeting_callback img_msg st))).
Proof.
  intros Hnone Hen Hh Hw.
  destruct (callback_defined st img_msg Hh Hw) as [Hret Hall].
  split; [exact Hret|].
  eapply Forall2_impl; [|exact (Hall Hen)].
  intros box msg [ops Hbox].
  destruct (targeting_box_record _ _ _ _ _ Hbox) as (Hn & Hr & Hb).
  rewrite Hnone in Hr. auto.
Qed.

Lemma no_depth_range_invalid_witness :
  snd (object_targeting_callback
         vga_frame (mkState true None (Some (mkBoxes [centred_box]))))
  = Returned
  /\ Forall2
       (fun box msg =>
          name msg = Class box
          /\ range_m msg = INVALID_RANGE
          /\ bearing_reported vga_frame box msg)
       [centred_box]
       (published_targets
          (fst (object_targeting_callback
                  vga_frame
                  (mkState true None (Some (mkBoxes [centred_box])))))).
Proof.
  apply (no_depth_range_invalid
           (mkState true None (Some (mkBoxes [centred_box]))) vga_frame).
  - reflexivity.
  - reflexivity.
  - discriminate.
  - discriminate.
Defined.

(** Against C2 as stated.  [flat_depth] is 8x8 and the frame 640x480; the
    box is ranged at 2 m, not -999. *)
Lemma mismatched_depth_is_used :
  shape flat_depth <> (height vga_frame, width vga_frame)
  /\ exists msg ops,
       targeting_box (holding flat_depth [square_box]) vga_frame square_box
       = Some (msg, ops)
       /\ published_targets
            (fst (object_targeting_callback
                    vga_frame (holding flat_depth [square_box])))
          = [msg]
       /\ pf_eqb (range_m msg) (2 # 1) = true
       /\ pf_eqb (range_m msg) (-999 # 1) = false.
Proof.
  split; [discriminate|].
  eexists. eexists. repeat split.
Qed.

(** C2, amended: when the held depth matrix differs in size from the
    frame, no check is made and the frame's size plays no part in the
    range: the box is ranged on the held matrix as under any other frame,
    by the rule of C1 (-999 only when too few samples pass the filter);
    the bearing is computed and the cycle returns. *)
Theorem range_ignores_frame_size (st : State) (img_msg other : Image)
    (m : depth_matrix) (box : BoundingBox) :
  np_depth_array_m st = Some m ->
  shape m <> (height img_msg, width img_msg) ->
  height img_msg <> 0 -> width img_msg <> 0 ->
  height other <> 0 -> width other <> 0 ->
  snd (object_targeting_callback img_msg st) = Returned
  /\ exists msg ops msg' ops',
       targeting_box st img_msg box = Some (msg, ops)
       /\ targeting_box st other box = Some (msg', ops')
       /\ range_m msg = range_m msg'
       /\ (TARGET_MIN_VALUES
           < Z.of_nat (List.length
                         (window_filter (depth_box m (reduce_box box))))
           -> range_m msg = np_mean (depth_box m (reduce_box box)))
       /\ (Z.of_nat (List.length
                       (window_filter (depth_box m (reduce_box box))))
           <= TARGET_MIN_VALUES
           -> range_m msg = INVALID_RANGE)
       /\ bearing_reported img_msg box msg.
Proof.
  intros Hm _ Hh Hw Hh' Hw'.
  split; [apply (callback_defined st img_msg Hh Hw)|].
  destruct (targeting_box_defined st img_msg box Hh Hw)
    as (msg & ops & Hbox & _).
  destruct (targeting_box_defined st other box Hh' Hw')
    as (msg' & ops' & Hbox' & _).
  exists msg, ops, msg', ops'.
  destruct (targeting_box_record _ _ _ _ _ Hbox) as (_ & Hr & Hb).
  destruct (targeting_box_record _ _ _ _ _ Hbox') as (_ & Hr' & _).
  destruct (target_range_cases m (reduce_box box)) as [Hvalid Hinvalid].
  rewrite Hm in Hr, Hr'.
  repeat split; try assumption.
  - congruence.
  - intro Hmany. rewrite Hr. auto.
  - intro Hfew. rewrite Hr. auto.
  - apply Hb.
  - apply Hb.
Qed.

Lemma range_ignores_frame_size_witness :
  snd (object_targeting_callback vga_frame (holding flat_depth [square_box]))
  = Returned
  /\ exists msg ops msg' ops',
       targeting_box (holding flat_depth [square_box]) vga_frame square_box
       = Some (msg, ops)
       /\ targeting_box (holding flat_depth [square_box]) (mkImage 8 8 [])
                        square_box
          = Some (msg', ops')
       /\ range_m msg = range_m msg'
       /\ (TARGET_MIN_VALUES
           < Z.of_nat (List.length
                         (window_filter
                            (depth_box flat_depth (reduce_box square_box))))
           -> range_m msg = np_mean (depth_box flat_depth
                                               (reduce_box square_box)))
       /\ (Z.of_nat (List.length
                       (window_filter
                          (depth_box flat_depth (reduce_box square_box))))
           <= TARGET_MIN_VALUES
           -> range_m msg = INVALID_RANGE)
       /\ bearing_reported vga_frame square_box msg.
Proof.
  apply (range_ignores_frame_size (holding flat_depth [square_box]) vga_frame
                                  (mkImage 8 8 []) flat_depth square_box).
  - reflexivity.
  - discriminate.
  - discriminate.
  - discriminate.
  - discriminate.
  - discriminate.
Defined.

(** * Clearing the detections *)

(** C7: a count of zero leaves no detection set held, and the next frame
    publishes no record and the incoming frame with nothing drawn on it. *)
Theorem count_zero_clears (st : State) (img_msg : Image) :
  publish_enable st = true ->
  detect_boxes (found_object_callback 0 st) = None
  /\ object_targeting_callback img_msg (found_object_callback 0 st)
     = ([TargetImage (mkCanvas img_msg [])], Returned)
  /\ snd (run [Arrive (FoundObject 0); ColourFrame img_msg []] st)
     = [TargetImage (mkCanvas img_msg [])].
Proof.
  intro Hen.
  assert (Hcb : object_targeting_callback img_msg (found_object_callback 0 st)
                = ([TargetImage (mkCanvas img_msg [])], Returned)).
  { unfold object_targeting_callback, held_boxes, publish. cbn. now rewrite Hen. }
  split; [reflexivity|]. split; [exact Hcb|].
  cbn. unfold object_targeting_during, held_boxes, publish. cbn.
  now rewrite Hen.
Qed.

Lemma count_zero_clears_witness :
  detect_boxes (found_object_callback 0 (holding flat_depth [square_box]))
  = None
  /\ object_targeting_callback
       vga_frame (found_object_callback 0 (holding flat_depth [square_box]))
     = ([TargetImage (mkCanvas vga_frame [])], Returned)
  /\ snd (run [Arrive (FoundObject 0); ColourFrame vga_frame []]
              (holding flat_depth [square_box]))
     = [TargetImage (mkCanvas vga_frame [])].
Proof.
  apply (count_zero_clears (holding flat_depth [square_box]) vga_frame).
  reflexivity.
Defined.

(** * The output gate *)




Lemma handle_all_app (es1 es2 : list event) (st : State) :
  handle_all (es1 ++ es2) st = handle_all es2 (handle_all es1 st).
Proof. apply fold_left_app. Qed.

Lemma handle_all_slots (arrivals : list (list event)) (st : State) :
  handle_all (List.concat (tl arrivals)) (handle_all (hd [] arrivals) st)
  = handle_all (List.concat arrivals) st.
Proof.
  destruct arrivals as [|es arrivals]; [reflexivity|].
  cbn [hd tl List.concat]. now rewrite handle_all_app.
Qed.

Lemma published_app (a b : list step) :
  published (a ++ b) = published a ++ published b.
Proof. apply flat_map_app. Qed.

Lemma published_handled (es : list event) : published (handled es) = [].
Proof. induction es as [|e es IH]; [reflexivity|exact IH]. Qed.

Lemma published_map (out : list emission) :
  published (map Published out) = out.
Proof.
  unfold published. induction out as [|m out IH]; [reflexivity|].
  cbn. now rewrite IH.
Qed.

Lemma published_publish_step (st : State) (m : emission) :
  published (publish_step st m) = publish st m.
Proof. apply published_map. Qed.

Lemma targeting_box_during_same (st : State) (img_msg : Image)
    (box : BoundingBox) :
  targeting_box_during st st img_msg box = targeting_box st img_msg box.
Proof.
  unfold targeting_box_during. now destruct (np_depth_array_m st).
Qed.


(** The handler leaves the globals as the arriving handlers made them. *)
Lemma during_state (img_msg : Image) (boxes : list BoundingBox) :
  forall st cv2_image arrivals,
    fst (fst (targeting_boxes_during st img_msg cv2_image boxes arrivals))
    = handle_all (List.concat arrivals) st.
Proof.
  induction boxes as [|box rest IH]; intros st cv2_image arrivals;
    cbn [targeting_boxes_during].
  - cbn [fst]. now rewrite !handle_all_slots.
  - destruct (targeting_box_during _ _ img_msg box) as [[msg ops]|].
    + specialize (IH (handle_all (hd [] (tl (tl (tl arrivals))))
                        (handle_all (hd [] (tl (tl arrivals)))
                           (handle_all (hd [] (tl arrivals))
                              (handle_all (hd [] arrivals) st))))
                     (draw cv2_image ops) (tl (tl (tl (tl arrivals))))).
      destruct (targeting_boxes_during _ img_msg (draw cv2_image ops) rest _)
        as [[st2 steps] oc].
      cbn [fst] in IH |- *. rewrite IH. now rewrite !handle_all_slots.
    + cbn [fst]. now rewrite !handle_all_slots.
Qed.

Lemma object_during_state (arrivals : list (list event)) (img_msg : Image)
    (st : State) :
  fst (fst (object_targeting_during arrivals img_msg st))
  = handle_all (List.concat arrivals) st.
Proof.
  unfold object_targeting_during.
  destruct (detect_boxes st); [|apply during_state].
  destruct (detect_boxes (handle_all (hd [] arrivals) st)) as [msg|].
  - pose proof (during_state img_msg (bounding_boxes msg)
                             (handle_all (hd [] arrivals) st)
                             (imgmsg_to_cv2 img_msg) (tl arrivals)) as H.
    destruct (targeting_boxes_during _ img_msg _ _ (tl arrivals))
      as [[st2 steps] oc].
    cbn [fst] in H |- *. rewrite H. apply handle_all_slots.
  - cbn [fst]. apply handle_all_slots.
Qed.


(** With nothing arriving meanwhile, the interleaved handler is the
    handler. *)
Lemma boxes_during_no_arrivals (st : State) (img_msg : Image)
    (boxes : list BoundingBox) :
  forall cv2_image,
    targeting_boxes_during st img_msg cv2_image boxes []
    = match targeting_boxes st img_msg cv2_image boxes with
      | (out, Some c) =>
          (st, map Published (out ++ publish st (TargetImage c)), Returned)
      | (out, None) => (st, map Published out, Raised)
      end.
Proof.
  induction boxes as [|box rest IH]; intro cv2_image;
    cbn [targeting_boxes_during targeting_boxes hd tl List.concat handle_all
         fold_left handled map app].
  - unfold publish_step. now rewrite app_nil_r.
  - rewrite targeting_box_during_same.
    destruct (targeting_box st img_msg box) as [[msg ops]|]; [|reflexivity].
    rewrite (IH (draw cv2_image ops)).
    destruct (targeting_boxes st img_msg (draw cv2_image ops) rest)
      as [out [c|]]; unfold publish_step;
      now rewrite <- ?map_app, <- ?app_assoc.
Qed.

Lemma during_no_arrivals (img_msg : Image) (st : State) :
  object_targeting_during [] img_msg st
  = (st, map Published (fst (object_targeting_callback img_msg st)),
     snd (object_targeting_callback img_msg st)).
Proof.
  unfold object_targeting_during, object_targeting_callback, held_boxes.
  cbn [hd tl handle_all fold_left handled map app].
  destruct (detect_boxes st) as [msg|]; rewrite boxes_during_no_arrivals.
  - destruct (targeting_boxes st img_msg (imgmsg_to_cv2 img_msg)
                              (bounding_boxes msg)) as [out [c|]];
      reflexivity.
  - reflexivity.
Qed.

Lemma run_state (ins : list input) :
  forall st, fst (run ins st) = handle_all (events_of ins) st.
Proof.
  induction ins as [|[e|img_msg arrivals] rest IH]; intro st;
    cbn [run events_of].
  - reflexivity.
  - apply IH.
  - pose proof (object_during_state arrivals img_msg st) as Hst.
    destruct (object_targeting_during arrivals img_msg st)
      as [[st1 steps] oc].
    cbn [fst] in Hst. subst st1.
    specialize (IH (handle_all (List.concat arrivals) st)).
    destruct (run rest _) as [st2 out2]. cbn [fst] in IH |- *.
    now rewrite handle_all_app.
Qed.


(** ** Messages sent after the flag is lowered *)













(** * What each handler writes *)

Lemma events_of_frames (imgs : list Image) :
  events_of (map (fun img_msg => ColourFrame img_msg []) imgs) = [].
Proof. induction imgs as [|img_msg imgs IH]; [reflexivity|exact IH]. Qed.

(** C10: the depth handler leaves the detection set and the flag alone,
    the count and box handlers leave the depth matrix and the flag alone,
    and the driving handler changes no global: after any number of frames
    with no other input the globals are what they were. *)
Theorem handlers_write_own_state :
  (forall depth_data st,
      detect_boxes (get_depth_data_callback depth_data st) = detect_boxes st
      /\ publish_enable (get_depth_data_callback depth_data st)
         = publish_enable st)
  /\ (forall count st,
         np_depth_array_m (found_object_callback count st)
         = np_depth_array_m st
         /\ publish_enable (found_object_callback count st)
            = publish_enable st)
  /\ (forall msg st,
         np_depth_array_m (object_detected_callback msg st)
         = np_depth_array_m st
         /\ publish_enable (object_detected_callback msg st)
            = publish_enable st)
  /\ (forall img_msg st,
         fst (fst (object_targeting_during [] img_msg st)) = st)
  /\ (forall imgs st,
         fst (run (map (fun img_msg => ColourFrame img_msg []) imgs) st)
         = st).
Proof.
  repeat split.
  - unfold found_object_callback. now destruct (count =? 0).
  - unfold found_object_callback. now destruct (count =? 0).
  - intros img_msg st. now rewrite during_no_arrivals.
  - intros imgs st. now rewrite run_state, events_of_frames.
Qed.

(** * Latest value wins *)

Lemma handle_all_cons (e : event) (es : list event) (st : State) :
  handle_all (e :: es) st = handle_all es (handle e st).
Proof. reflexivity. Qed.

Lemma detections_kept (es : list event) :
  forall st,
    forallb (fun e => negb (writes_detections e)) es = true ->
    detect_boxes (handle_all es st) = detect_boxes st.
Proof.
  induction es as [|e es IH]; intros st Hes; [reflexivity|].
  cbn [forallb] in Hes. apply andb_true_iff in Hes. destruct Hes as [He Hes].
  rewrite handle_all_cons, (IH _ Hes).
  destruct e as [count| | |]; cbn in He |- *; try discriminate; try reflexivity.
  unfold found_object_callback.
  destruct (count =? 0); [discriminate|reflexivity].
Qed.

Lemma depth_kept (es : list event) :
  forall st,
    forallb (fun e => negb (writes_depth e)) es = true ->
    np_depth_array_m (handle_all es st) = np_depth_array_m st.
Proof.
  induction es as [|e es IH]; intros st Hes; [reflexivity|].
  cbn [forallb] in Hes. apply andb_true_iff in Hes. destruct Hes as [He Hes].
  rewrite handle_all_cons, (IH _ Hes).
  destruct e as [count| | |]; cbn in He |- *; try discriminate; try reflexivity.
  unfold found_object_callback. now destruct (count =? 0).
Qed.

(** X1: the detection set held after a run of handler calls is the one
    written by the last call that writes it: the last box message if no
    zero count came after it, nothing if a zero count came last.  Non-zero
    counts, depth frames and the shutdown hook in between change nothing. *)
Theorem detections_last_writer_wins (pre post : list event) (st : State) :
  forallb (fun e => negb (writes_detections e)) post = true ->
  (forall msg,
      detect_boxes (handle_all (pre ++ ObjectDetected msg :: post) st)
      = Some msg)
  /\ detect_boxes (handle_all (pre ++ FoundObject 0 :: post) st) = None.
Proof.
  intro Hpost. split; [intro msg|];
    rewrite handle_all_app, handle_all_cons, (detections_kept _ _ Hpost);
    reflexivity.
Qed.

Lemma detections_last_writer_wins_witness :
  (forall msg,
      detect_boxes
        (handle_all ([FoundObject 0] ++ ObjectDetected msg
                       :: [FoundObject 3; DepthData []; Shutdown])
                    initial_state)
      = Some msg)
  /\ detect_boxes
       (handle_all ([ObjectDetected (mkBoxes [square_box])] ++ FoundObject 0
                      :: [FoundObject 3; DepthData []; Shutdown])
                   initial_state)
     = None.
Proof.
  split.
  - apply (detections_last_writer_wins
             [FoundObject 0] [FoundObject 3; DepthData []; Shutdown]
             initial_state).
    reflexivity.
  - apply (detections_last_writer_wins
             [ObjectDetected (mkBoxes [square_box])]
             [FoundObject 3; DepthData []; Shutdown] initial_state).
    reflexivity.
Defined.

(** X2: the depth matrix held is the conversion of the last depth frame
    received, whatever else was handled before or after it. *)
Theorem depth_latest_frame (pre post : list event) (depth_data : depth_frame)
    (st : State) :
  forallb (fun e => negb (writes_depth e)) post = true ->
  np_depth_array_m (handle_all (pre ++ DepthData depth_data :: post) st)
  = Some (map (map sanitize) depth_data).
Proof.
  intro Hpost.
  rewrite handle_all_app, handle_all_cons, (depth_kept _ _ Hpost).
  reflexivity.
Qed.

Lemma depth_latest_frame_witness :
  np_depth_array_m
    (handle_all ([DepthData [[RawVal (5 # 1)]]]
                   ++ DepthData [[RawNaN; RawVal (1 # 2)]]
                   :: [FoundObject 0; Shutdown])
                initial_state)
  = Some (map (map sanitize) [[RawNaN; RawVal (1 # 2)]]).
Proof.
  apply (depth_latest_frame [DepthData [[RawVal (5 # 1)]]]
                            [FoundObject 0; Shutdown]
                            [[RawNaN; RawVal (1 # 2)]] initial_state).
  reflexivity.
Defined.

(** X3: the flag is up after a run of handler calls exactly when it was up
    before and the shutdown hook was not among them: no handler raises it
    again. *)
Theorem flag_only_lowered (es : list event) (st : State) :
  publish_enable (handle_all es st)
  = publish_enable st && forallb (fun e => negb (is_shutdown e)) es.
Proof.
  revert st. induction es as [|e es IH]; intro st.
  - cbn. now rewrite andb_true_r.
  - rewrite handle_all_cons, IH. cbn [forallb].
    destruct e as [count| | |]; cbn.
    + unfold found_object_callback. now destruct (count =? 0).
    + reflexivity.
    + reflexivity.
    + now rewrite andb_false_r.
Qed.

(** * Geometry of the reduced box *)

Lemma box_reduction_pix_bounds (extent : Z) :
  0 <= extent ->
  0 <= 4 * box_reduction_pix extent <= extent
  /\ extent < 4 * box_reduction_pix extent + 4.
Proof.
  intro He. rewrite box_reduction_pix_quot.
  rewrite Z.quot_div_nonneg by lia.
  pose proof (Z.div_mod (extent * 25) 100 ltac:(lia)) as Hdm.
  pose proof (Z.mod_pos_bound (extent * 25) 100 ltac:(lia)) as Hmod.
  lia.
Qed.

(** X4: for a box with [xmin <= xmax] and [ymin <= ymax] the reduced box
    lies inside the box, has the same mid-point, and keeps at least half
    of each extent (at most half plus 3/2 pixels); it has a positive width
    and height whenever the box has. *)
Theorem reduce_box_inside (box : BoundingBox) :
  xmin box <= xmax box -> ymin box <= ymax box ->
  (xmin box <= xmin_adj (reduce_box box)
   /\ xmin_adj (reduce_box box) <= xmax_adj (reduce_box box)
   /\ xmax_adj (reduce_box box) <= xmax box)
  /\ (ymin box <= ymin_adj (reduce_box box)
      /\ ymin_adj (reduce_box box) <= ymax_adj (reduce_box box)
      /\ ymax_adj (reduce_box box) <= ymax box)
  /\ xmin_adj (reduce_box box) + xmax_adj (reduce_box box)
     = xmin box + xmax box
  /\ ymin_adj (reduce_box box) + ymax_adj (reduce_box box)
     = ymin box + ymax box
  /\ (xmax box - xmin box
      <= 2 * (xmax_adj (reduce_box box) - xmin_adj (reduce_box box))
      <= xmax box - xmin box + 3)
  /\ (ymax box - ymin box
      <= 2 * (ymax_adj (reduce_box box) - ymin_adj (reduce_box box))
      <= ymax box - ymin box + 3)
  /\ (xmin box < xmax box ->
      xmin_adj (reduce_box box) < xmax_adj (reduce_box box))
  /\ (ymin box < ymax box ->
      ymin_adj (reduce_box box) < ymax_adj (reduce_box box)).
Proof.
  intros Hx Hy. unfold reduce_box. cbn [xmin_adj xmax_adj ymin_adj ymax_adj].
  pose proof (box_reduction_pix_bounds (xmax box - xmin box) ltac:(lia)).
  pose proof (box_reduction_pix_bounds (ymax box - ymin box) ltac:(lia)).
  lia.
Qed.

Lemma reduce_box_inside_witness :
  (xmin centred_box <= xmin_adj (reduce_box centred_box)
   /\ xmin_adj (reduce_box centred_box) <= xmax_adj (reduce_box centred_box)
   /\ xmax_adj (reduce_box centred_box) <= xmax centred_box)
  /\ xmin_adj (reduce_box centred_box) + xmax_adj (reduce_box centred_box)
     = xmin centred_box + xmax centred_box.
Proof.
  destruct (reduce_box_inside centred_box) as (Hx & _ & Hmid & _).
  - cbn. lia.
  - cbn. lia.
  - split; [exact Hx|exact Hmid].
Defined.

(** * Slices *)

Lemma py_slice_length_inside {A : Type} (lo hi : Z) (l : list A) :
  0 <= lo -> lo <= hi -> hi <= Z.of_nat (List.length l) ->
  Z.of_nat (List.length (py_slice lo hi l)) = hi - lo.
Proof.
  intros Hlo Hle Hhi. unfold py_slice, slice_index.
  destruct (Z.ltb_spec lo 0); [lia|].
  destruct (Z.ltb_spec hi 0); [lia|].
  rewrite length_firstn, length_skipn. lia.
Qed.

Lemma py_slice_length_le {A : Type} (lo hi : Z) (l : list A) :
  0 <= lo -> 0 <= hi ->
  Z.of_nat (List.length (py_slice lo hi l)) <= Z.max 0 (hi - lo).
Proof.
  intros Hlo Hhi. unfold py_slice, slice_index.
  destruct (Z.ltb_spec lo 0); [lia|].
  destruct (Z.ltb_spec hi 0); [lia|].
  rewrite length_firstn, length_skipn. lia.
Qed.

Lemma flatten_length_rows (rows : list (list Q)) (n : nat) :
  Forall (fun row => List.length row = n) rows ->
  List.length (flatten rows) = (List.length rows * n)%nat.
Proof.
  unfold flatten. induction 1 as [|row rows Hrow _ IH]; [reflexivity|].
  cbn. rewrite length_app, IH, Hrow. reflexivity.
Qed.

Lemma flatten_length_rows_le (rows : list (list Q)) (n : nat) :
  Forall (fun row => (List.length row <= n)%nat) rows ->
  (List.length (flatten rows) <= List.length rows * n)%nat.
Proof.
  unfold flatten. induction 1 as [|row rows Hrow _ IH]; [cbn; lia|].
  cbn. rewrite length_app. lia.
Qed.

Lemma firstn_incl {A : Type} (n : nat) :
  forall l : list A, incl (firstn n l) l.
Proof.
  induction n as [|n IH]; intros [|a l] x Hx; cbn in Hx; try contradiction.
  destruct Hx as [<- | Hx]; [now left|right; now apply IH].
Qed.

Lemma skipn_incl {A : Type} (n : nat) :
  forall l : list A, incl (skipn n l) l.
Proof.
  induction n as [|n IH]; intros [|a l] x Hx; cbn in Hx; try assumption.
  right. now apply IH.
Qed.

Lemma py_slice_incl {A : Type} (lo hi : Z) (l : list A) :
  incl (py_slice lo hi l) l.
Proof.
  unfold py_slice. intros x Hx.
  apply firstn_incl in Hx. now apply skipn_incl in Hx.
Qed.

(** * Samples of a box *)

Lemma depth_box_rows (m : depth_matrix) (a : AdjBox) (n : nat) :
  Forall (fun row => List.length row = n) m ->
  0 <= xmin_adj a -> xmin_adj a <= xmax_adj a ->
  xmax_adj a <= Z.of_nat n ->
  Forall (fun row => List.length row
                     = Z.to_nat (xmax_adj a - xmin_adj a))
         (depth_box m a).
Proof.
  intros Hrect Hx0 Hx Hx1. unfold depth_box, crop.
  apply Forall_forall. intros row Hrow.
  apply in_map_iff in Hrow. destruct Hrow as (src & <- & Hsrc).
  apply py_slice_incl in Hsrc.
  rewrite Forall_forall in Hrect. specialize (Hrect _ Hsrc).
  pose proof (py_slice_length_inside (xmin_adj a) (xmax_adj a) src
                                     Hx0 Hx ltac:(lia)).
  lia.
Qed.

(** X5: when the depth matrix is a full rectangle and the box lies inside
    it, the samples taken for the box are exactly those of the reduced
    box: its height times its width of them. *)
Theorem depth_box_sample_count (m : depth_matrix) (box : BoundingBox)
    (cols : nat) :
  Forall (fun row => List.length row = cols) m ->
  0 <= xmin box -> xmin box <= xmax box -> xmax box <= Z.of_nat cols ->
  0 <= ymin box -> ymin box <= ymax box ->
  ymax box <= Z.of_nat (List.length m) ->
  Z.of_nat (List.length (flatten (depth_box m (reduce_box box))))
  = (ymax_adj (reduce_box box) - ymin_adj (reduce_box box))
    * (xmax_adj (reduce_box box) - xmin_adj (reduce_box box)).
Proof.
  intros Hrect Hx0 Hx Hx1 Hy0 Hy Hy1.
  pose proof (box_reduction_pix_bounds (xmax box - xmin box) ltac:(lia))
    as Hrx.
  pose proof (box_reduction_pix_bounds (ymax box - ymin box) ltac:(lia))
    as Hry.
  assert (Hax : 0 <= xmin_adj (reduce_box box)
                /\ xmin_adj (reduce_box box) <= xmax_adj (reduce_box box)
                /\ xmax_adj (reduce_box box) <= Z.of_nat cols)
    by (unfold reduce_box; cbn; lia).
  assert (Hay : 0 <= ymin_adj (reduce_box box)
                /\ ymin_adj (reduce_box box) <= ymax_adj (reduce_box box)
                /\ ymax_adj (reduce_box box) <= Z.of_nat (List.length m))
    by (unfold reduce_box; cbn; lia).
  destruct Hax as (Hax0 & Hax & Hax1). destruct Hay as (Hay0 & Hay & Hay1).
  rewrite (flatten_length_rows _ _
             (depth_box_rows m (reduce_box box) cols Hrect Hax0 Hax Hax1)).
  unfold depth_box, crop. rewrite length_map.
  pose proof (py_slice_length_inside _ _ m Hay0 Hay Hay1).
  nia.
Qed.

Lemma depth_box_sample_count_witness :
  Z.of_nat (List.length (flatten (depth_box flat_depth
                                            (reduce_box square_box))))
  = (ymax_adj (reduce_box square_box) - ymin_adj (reduce_box square_box))
    * (xmax_adj (reduce_box square_box) - xmin_adj (reduce_box square_box)).
Proof.
  apply (depth_box_sample_count flat_depth square_box 8).
  - repeat constructor.
  - cbn; lia.
  - cbn; lia.
  - cbn; lia.
  - cbn; lia.
  - cbn; lia.
  - cbn; lia.
Defined.

Lemma depth_box_count_le (m : depth_matrix) (a : AdjBox) :
  0 <= xmin_adj a -> xmin_adj a <= xmax_adj a ->
  0 <= ymin_adj a -> ymin_adj a <= ymax_adj a ->
  Z.of_nat (List.length (flatten (depth_box m a)))
  <= (ymax_adj a - ymin_adj a) * (xmax_adj a - xmin_adj a).
Proof.
  intros Hx0 Hx Hy0 Hy.
  assert (Hrows : Forall (fun row => (List.length row
                                      <= Z.to_nat (xmax_adj a - xmin_adj a))%nat)
                         (depth_box m a)).
  { unfold depth_box, crop. apply Forall_forall. intros row Hrow.
    apply in_map_iff in Hrow. destruct Hrow as (src & <- & _).
    pose proof (py_slice_length_le (xmin_adj a) (xmax_adj a) src
                                   Hx0 ltac:(lia)). lia. }
  pose proof (flatten_length_rows_le _ _ Hrows) as Hle.
  assert (Hn : Z.of_nat (List.length (depth_box m a))
               <= ymax_adj a - ymin_adj a).
  { unfold depth_box, crop. rewrite length_map.
    pose proof (py_slice_length_le (ymin_adj a) (ymax_adj a) m
                                   Hy0 ltac:(lia)). lia. }
  nia.
Qed.

(** X6: a box at non-negative coordinates whose reduced box covers no
    more than [TARGET_MIN_VALUES] pixels is never ranged: whatever the
    depth matrix, its record carries -999. *)
Theorem small_box_never_ranged (st : State) (img_msg : Image)
    (box : BoundingBox) :
  0 <= xmin box -> xmin box <= xmax box ->
  0 <= ymin box -> ymin box <= ymax box ->
  (ymax_adj (reduce_box box) - ymin_adj (reduce_box box))
  * (xmax_adj (reduce_box box) - xmin_adj (reduce_box box))
  <= TARGET_MIN_VALUES ->
  height img_msg <> 0 -> width img_msg <> 0 ->
  exists msg ops,
    targeting_box st img_msg box = Some (msg, ops)
    /\ range_m msg = INVALID_RANGE.
Proof.
  intros Hx0 Hx Hy0 Hy Harea Hh Hw.
  destruct (targeting_box_defined st img_msg box Hh Hw)
    as (msg & ops & Hbox & _ & Hr & _).
  exists msg, ops. split; [exact Hbox|]. rewrite Hr.
  destruct (np_depth_array_m st) as [m|]; [|reflexivity].
  apply target_range_cases.
  pose proof (box_reduction_pix_bounds (xmax box - xmin box) ltac:(lia))
    as Hrx.
  pose proof (box_reduction_pix_bounds (ymax box - ymin box) ltac:(lia))
    as Hry.
  pose proof (depth_box_count_le m (reduce_box box)) as Hcount.
  unfold reduce_box in Hcount, Harea |- *.
  cbn [xmin_adj xmax_adj ymin_adj ymax_adj] in Hcount, Harea |- *.
  specialize (Hcount ltac:(lia) ltac:(lia) ltac:(lia) ltac:(lia)).
  pose proof (window_filter_length_le
                (depth_box m (reduce_box box))) as Hle.
  unfold reduce_box in Hle. lia.
Qed.

Lemma small_box_never_ranged_witness :
  exists msg ops,
    targeting_box (holding flat_depth [mkBox "pen" 1 1 6 5]) vga_frame
                  (mkBox "pen" 1 1 6 5)
    = Some (msg, ops)
    /\ range_m msg = INVALID_RANGE.
Proof.
  apply (small_box_never_ranged (holding flat_depth [mkBox "pen" 1 1 6 5])
                                vga_frame (mkBox "pen" 1 1 6 5)).
  - cbn; lia.
  - cbn; lia.
  - cbn; lia.
  - cbn; lia.
  - vm_compute. discriminate.
  - discriminate.
  - discriminate.
Defined.

(** * Values of the range *)

Lemma Qsum_bounds (lo hi : Q) (l : list Q) :
  Forall (fun x => (lo <= x)%Q /\ (x <= hi)%Q) l ->
  (inject_Z (Z.of_nat (List.length l)) * lo <= Qsum l)%Q
  /\ (Qsum l <= inject_Z (Z.of_nat (List.length l)) * hi)%Q.
Proof.
  induction 1 as [|x l [Hlo Hhi] _ [IHlo IHhi]].
  - change (inject_Z (Z.of_nat (List.length (@nil Q)))) with 0%Q.
    change (Qsum []) with 0%Q. split; lra.
  - change (Qsum (x :: l)) with (x + Qsum l)%Q.
    change (List.length (x :: l)) with (S (List.length l)).
    rewrite Nat2Z.inj_succ. unfold Z.succ. rewrite inject_Z_plus.
    change (inject_Z 1) with 1%Q.
    split; lra.
Qed.

Lemma np_mean_flat_bounds (lo hi : Q) (l : list Q) :
  l <> [] ->
  Forall (fun x => (lo <= x)%Q /\ (x <= hi)%Q) l ->
  exists mu, np_mean_flat l = Num mu /\ (lo <= mu)%Q /\ (mu <= hi)%Q.
Proof.
  intros Hne Hall.
  destruct (np_mean_flat_sum l Hne) as (mu & Hmu & Hsum).
  destruct (Qsum_bounds lo hi l Hall) as [Hlo Hhi].
  exists mu. split; [exact Hmu|].
  assert (Hn : (0 < inject_Z (Z.of_nat (List.length l)))%Q).
  { destruct l as [|a l]; [congruence|].
    unfold Qlt. cbn. lia. }
  rewrite <- Hsum in Hlo, Hhi.
  split.
  - apply (Qmult_le_l _ _ _ Hn). lra.
  - apply (Qmult_le_l _ _ _ Hn). lra.
Qed.

Lemma many_survivors_nonempty (sub : depth_matrix) :
  TARGET_MIN_VALUES < Z.of_nat (List.length (window_filter sub)) ->
  flatten sub <> [].
Proof.
  intros Hmany He.
  pose proof (window_filter_length_le sub) as Hle.
  rewrite He in Hle. cbn in Hle. unfold TARGET_MIN_VALUES in Hmany. lia.
Qed.

(** X7: a range that is reported lies between the smallest and the
    largest depth of the reduced region; in particular, over non-negative
    depths a reported range is non-negative and cannot be taken for
    -999. *)
Theorem range_within_samples (m : depth_matrix) (a : AdjBox) (lo hi : Q) :
  Forall (fun x => (lo <= x)%Q /\ (x <= hi)%Q) (flatten (depth_box m a)) ->
  TARGET_MIN_VALUES
  < Z.of_nat (List.length (window_filter (depth_box m a))) ->
  exists r,
    target_range (Some m) a = Num r /\ (lo <= r)%Q /\ (r <= hi)%Q.
Proof.
  intros Hall Hmany.
  destruct (target_range_cases m a) as [Hvalid _].
  rewrite (Hvalid Hmany). unfold np_mean.
  apply np_mean_flat_bounds; [|exact Hall].
  apply many_survivors_nonempty, Hmany.
Qed.

Lemma range_within_samples_witness :
  exists r,
    target_range (Some spiked_depth) (reduce_box square_box) = Num r
    /\ (2 # 1 <= r)%Q /\ (r <= 4 # 1)%Q.
Proof.
  apply (range_within_samples spiked_depth (reduce_box square_box)
                              (2 # 1) (4 # 1)).
  - vm_compute flatten. repeat constructor; unfold Qle; cbn; lia.
  - vm_compute. reflexivity.
Defined.

Lemma window_filter_In (sub : depth_matrix) (d : Q) :
  In d (window_filter sub) ->
  exists mu,
    np_mean sub = Num mu
    /\ In d (flatten sub)
    /\ (mu - (3 # 20) < d)%Q /\ (d < mu + (3 # 20))%Q.
Proof.
  unfold window_filter. intro Hd.
  apply filter_In in Hd. destruct Hd as [Hd Hhi].
  apply filter_In in Hd. destruct Hd as [Hd Hlo].
  destruct (np_mean sub) as [|mu]; [discriminate|].
  exists mu. cbn in Hlo, Hhi.
  apply Qltb_lt in Hlo. apply Qltb_lt in Hhi.
  repeat split; assumption.
Qed.

(** X8: any two samples that pass the window filter differ by less than
    [TARGET_DEPTH_METERS]. *)
Theorem survivors_within_window (sub : depth_matrix) (x y : Q) :
  In x (window_filter sub) -> In y (window_filter sub) ->
  (x - y < TARGET_DEPTH_METERS)%Q.
Proof.
  intros Hx Hy.
  destruct (window_filter_In _ _ Hx) as (mu & Hmu & _ & _ & Hxhi).
  destruct (window_filter_In _ _ Hy) as (mu' & Hmu' & _ & Hylo & _).
  rewrite Hmu in Hmu'. injection Hmu' as <-.
  unfold TARGET_DEPTH_METERS. lra.
Qed.

Lemma survivors_within_window_witness :
  In (21 # 10)%Q (window_filter close_depths)
  /\ In (2 # 1)%Q (window_filter close_depths)
  /\ ((21 # 10) - (2 # 1) < TARGET_DEPTH_METERS)%Q.
Proof.
  assert (Hx : In (21 # 10)%Q (window_filter close_depths))
    by (vm_compute; right; left; reflexivity).
  assert (Hy : In (2 # 1)%Q (window_filter close_depths))
    by (vm_compute; left; reflexivity).
  split; [exact Hx|]. split; [exact Hy|].
  exact (survivors_within_window close_depths _ _ Hx Hy).
Defined.

Lemma filter_all {A : Type} (f : A -> bool) (l : list A) :
  Forall (fun x => f x = true) l -> filter f l = l.
Proof.
  induction 1 as [|x l Hx _ IH]; [reflexivity|]. cbn. now rewrite Hx, IH.
Qed.

(** X9: when more than [TARGET_MIN_VALUES] samples are taken and all of
    them have the same depth, that depth is the range. *)
Theorem uniform_depth_is_range (m : depth_matrix) (a : AdjBox) (d : Q) :
  Forall (fun x => (x == d)%Q) (flatten (depth_box m a)) ->
  TARGET_MIN_VALUES < Z.of_nat (List.length (flatten (depth_box m a))) ->
  window_filter (depth_box m a) = flatten (depth_box m a)
  /\ exists r, target_range (Some m) a = Num r /\ (r == d)%Q.
Proof.
  intros Hall Hmany.
  assert (Hne : flatten (depth_box m a) <> []).
  { intro He. rewrite He in Hmany. cbn in Hmany.
    unfold TARGET_MIN_VALUES in Hmany. lia. }
  assert (Hb : Forall (fun x => (d <= x)%Q /\ (x <= d)%Q)
                      (flatten (depth_box m a))).
  { eapply Forall_impl; [|exact Hall]. cbn. intros x Hx. rewrite Hx.
    split; apply Qle_refl. }
  destruct (np_mean_flat_bounds d d _ Hne Hb) as (mu & Hmu & Hlo & Hhi).
  assert (Hkeep : window_filter (depth_box m a) = flatten (depth_box m a)).
  { unfold window_filter, np_mean. rewrite Hmu. cbn [pf_sub pf_add].
    rewrite filter_filter. apply filter_all.
    eapply Forall_impl; [|exact Hall]. cbn. intros x Hx.
    apply andb_true_iff. split; apply Qltb_lt; rewrite Hx;
      change (TARGET_DEPTH_METERS / inject_Z 2)%Q with (3 # 20)%Q; lra. }
  split; [exact Hkeep|].
  destruct (target_range_cases m a) as [Hvalid _].
  rewrite Hvalid by (rewrite Hkeep; exact Hmany).
  exists mu. split; [exact Hmu|]. apply Qle_antisym; assumption.
Qed.

Lemma uniform_depth_is_range_witness :
  window_filter (depth_box flat_depth (reduce_box square_box))
  = flatten (depth_box flat_depth (reduce_box square_box))
  /\ exists r,
       target_range (Some flat_depth) (reduce_box square_box) = Num r
       /\ (r == 2 # 1)%Q.
Proof.
  apply (uniform_depth_is_range flat_depth (reduce_box square_box) (2 # 1)).
  - vm_compute flatten. repeat constructor.
  - vm_compute. reflexivity.
Defined.

(** * Size and sign of the bearings *)

Lemma ratio_bounds (c w : Q) :
  (0 < w)%Q -> (0 <= c)%Q -> (c <= w)%Q ->
  (-(1) <= (c - w / inject_Z 2) / (w / inject_Z 2))%Q
  /\ ((c - w / inject_Z 2) / (w / inject_Z 2) <= 1)%Q.
Proof.
  intros Hw Hc0 Hc1.
  assert (Hwh : (w == 2 * (w / inject_Z 2))%Q) by field.
  revert Hwh. generalize (w / inject_Z 2)%Q as h. intros h Hwh.
  assert (Hhalf : (0 < h)%Q) by lra.
  split.
  - apply Qle_shift_div_l; [exact Hhalf|]. lra.
  - apply Qle_shift_div_r; [exact Hhalf|]. lra.
Qed.

Lemma ratio_sign (c w : Q) :
  (0 < w)%Q ->
  ((w / inject_Z 2 < c)%Q -> (0 < (c - w / inject_Z 2) / (w / inject_Z 2))%Q)
  /\ ((c < w / inject_Z 2)%Q ->
      ((c - w / inject_Z 2) / (w / inject_Z 2) < 0)%Q).
Proof.
  intro Hw.
  assert (Hwh : (w == 2 * (w / inject_Z 2))%Q) by field.
  revert Hwh. generalize (w / inject_Z 2)%Q as h. intros h Hwh.
  assert (Hhalf : (0 < h)%Q) by lra.
  split; intro Hc.
  - apply Qlt_shift_div_l; [exact Hhalf|]. lra.
  - apply Qlt_shift_div_r; [exact Hhalf|]. lra.
Qed.

Lemma center_x_inside (box : BoundingBox) (w : Z) :
  0 <= xmin box -> xmin box <= xmax box -> xmax box <= w ->
  (0 <= center_x box)%Q /\ (center_x box <= inject_Z w)%Q.
Proof.
  intros H0 H1 H2. unfold center_x, Qle. cbn. lia.
Qed.

Lemma center_y_inside (box : BoundingBox) (h : Z) :
  0 <= ymin box -> ymin box <= ymax box -> ymax box <= h ->
  (0 <= center_y box)%Q /\ (center_y box <= inject_Z h)%Q.
Proof.
  intros H0 H1 H2. unfold center_y, Qle. cbn. lia.
Qed.

Lemma inject_Z_pos (z : Z) : 0 < z -> (0 < inject_Z z)%Q.
Proof. intro Hz. unfold Qlt. cbn. lia. Qed.

(** X10: for a box that lies inside the frame the azimuth is within half
    the horizontal field of view (55 degrees) either side and the
    elevation within half the vertical one (35 degrees). *)
Theorem bearing_within_fov (st : State) (img_msg : Image)
    (box : BoundingBox) :
  0 <= xmin box -> xmin box <= xmax box -> xmax box <= width img_msg ->
  0 <= ymin box -> ymin box <= ymax box -> ymax box <= height img_msg ->
  0 < width img_msg -> 0 < height img_msg ->
  exists msg ops,
    targeting_box st img_msg box = Some (msg, ops)
    /\ (- (55 # 1) <= azimuth_deg msg)%Q /\ (azimuth_deg msg <= 55 # 1)%Q
    /\ (- (35 # 1) <= elevation_deg msg)%Q
    /\ (elevation_deg msg <= 35 # 1)%Q.
Proof.
  intros Hx0 Hx Hx1 Hy0 Hy Hy1 Hw Hh.
  destruct (targeting_box_defined st img_msg box) as (msg & ops & Hbox & _);
    [lia | lia |].
  exists msg, ops. split; [exact Hbox|].
  destruct (targeting_box_record _ _ _ _ _ Hbox) as (_ & _ & Haz & Hel).
  destruct (center_x_inside box _ Hx0 Hx Hx1) as [Hcx0 Hcx1].
  destruct (center_y_inside box _ Hy0 Hy Hy1) as [Hcy0 Hcy1].
  destruct (ratio_bounds _ _ (inject_Z_pos _ Hw) Hcx0 Hcx1) as [Hrx0 Hrx1].
  destruct (ratio_bounds _ _ (inject_Z_pos _ Hh) Hcy0 Hcy1) as [Hry0 Hry1].
  rewrite Haz, Hel.
  change (inject_Z FOV_HORZ_DEG / inject_Z 2)%Q with (110 # 2)%Q.
  change (inject_Z FOV_VERT_DEG / inject_Z 2)%Q with (70 # 2)%Q.
  repeat split; lra.
Qed.

Lemma bearing_within_fov_witness :
  exists msg ops,
    targeting_box (holding flat_depth [square_box]) vga_frame square_box
    = Some (msg, ops)
    /\ (- (55 # 1) <= azimuth_deg msg)%Q /\ (azimuth_deg msg <= 55 # 1)%Q
    /\ (- (35 # 1) <= elevation_deg msg)%Q
    /\ (elevation_deg msg <= 35 # 1)%Q.
Proof.
  apply (bearing_within_fov (holding flat_depth [square_box]) vga_frame
                            square_box); cbn; lia.
Defined.

(** X11: in a frame of positive size, a box centred right of the image
    centre has a positive azimuth and one centred left of it a negative
    one; a box centred above the image centre (smaller row number) has a
    positive elevation and one centred below it a negative one. *)
Theorem bearing_signs (st : State) (img_msg : Image) (box : BoundingBox) :
  0 < width img_msg -> 0 < height img_msg ->
  exists msg ops,
    targeting_box st img_msg box = Some (msg, ops)
    /\ ((inject_Z (width img_msg) / inject_Z 2 < center_x box)%Q ->
        (0 < azimuth_deg msg)%Q)
    /\ ((center_x box < inject_Z (width img_msg) / inject_Z 2)%Q ->
        (azimuth_deg msg < 0)%Q)
    /\ ((center_y box < inject_Z (height img_msg) / inject_Z 2)%Q ->
        (0 < elevation_deg msg)%Q)
    /\ ((inject_Z (height img_msg) / inject_Z 2 < center_y box)%Q ->
        (elevation_deg msg < 0)%Q).
Proof.
  intros Hw Hh.
  destruct (targeting_box_defined st img_msg box) as (msg & ops & Hbox & _);
    [lia | lia |].
  exists msg, ops. split; [exact Hbox|].
  destruct (targeting_box_record _ _ _ _ _ Hbox) as (_ & _ & Haz & Hel).
  destruct (ratio_sign (center_x box) _ (inject_Z_pos _ Hw)) as [Hxp Hxn].
  destruct (ratio_sign (center_y box) _ (inject_Z_pos _ Hh)) as [Hyp Hyn].
  rewrite Haz, Hel.
  change (inject_Z FOV_HORZ_DEG / inject_Z 2)%Q with (110 # 2)%Q.
  change (inject_Z FOV_VERT_DEG / inject_Z 2)%Q with (70 # 2)%Q.
  repeat split; intro Hc.
  - specialize (Hxp Hc). lra.
  - specialize (Hxn Hc). lra.
  - specialize (Hyn Hc). lra.
  - specialize (Hyp Hc). lra.
Qed.

Lemma bearing_signs_witness :
  exists msg ops,
    targeting_box (holding flat_depth [square_box]) vga_frame square_box
    = Some (msg, ops)
    /\ (azimuth_deg msg < 0)%Q
    /\ (0 < elevation_deg msg)%Q.
Proof.
  destruct (bearing_signs (holding flat_depth [square_box]) vga_frame
                          square_box)
    as (msg & ops & Hbox & _ & Hleft & Habove & _);
    [cbn; lia | cbn; lia |].
  exists msg, ops. split; [exact Hbox|].
  split; [apply Hleft | apply Habove]; unfold Qlt; cbn; lia.
Defined.

(** * Frames of no height or width *)

Lemma ratio_from_center_zero (loc : Q) : ratio_from_center loc 0 = None.
Proof. reflexivity. Qed.

(** X12: on a frame whose height or width is 0 the handler raises at the
    first box held, before anything is published: no record and no image
    go out for that frame. *)
Theorem zero_size_frame_raises (st : State) (img_msg : Image) :
  height img_msg = 0 \/ width img_msg = 0 ->
  held_boxes st <> [] ->
  object_targeting_callback img_msg st = ([], Raised).
Proof.
  intros Hzero Hboxes. unfold object_targeting_callback.
  destruct (held_boxes st) as [|box rest]; [congruence|].
  cbn [targeting_boxes].
  assert (Hraise : targeting_box st img_msg box = None).
  { unfold targeting_box. destruct Hzero as [-> | ->].
    - now rewrite ratio_from_center_zero.
    - rewrite ratio_from_center_zero.
      now destruct (ratio_from_center _ (height img_msg)). }
  now rewrite Hraise.
Qed.

Lemma zero_size_frame_raises_witness :
  object_targeting_callback (mkImage 480 0 [])
                            (holding flat_depth [square_box])
  = ([], Raised).
Proof.
  apply (zero_size_frame_raises (holding flat_depth [square_box])
                                (mkImage 480 0 [])).
  - right. reflexivity.
  - discriminate.
Defined.

(** * What a frame publishes *)

Lemma py_int_object_loc_pix (lo hi : Z) :
  py_int (object_loc_pix lo hi) = Z.quot (lo + hi) 2.
Proof.
  unfold py_int, object_loc_pix. cbn. f_equal. lia.
Qed.

(** X13: what is drawn for a box: the rectangle of the reduced box, the
    label at the mid-point of the box (truncated to a pixel), and 15
    pixels below it the values of the record, except that the range is
    shown as NaN when, and only when, the record's range equals -999. *)
Theorem overlay_of_box (st : State) (img_msg : Image) (box : BoundingBox) :
  height img_msg <> 0 -> width img_msg <> 0 ->
  exists msg shown,
    targeting_box st img_msg box
    = Some (msg,
            [ Rectangle (xmin_adj (reduce_box box), ymin_adj (reduce_box box))
                        (xmax_adj (reduce_box box), ymax_adj (reduce_box box));
              PutLabel (Class box)
                       (Z.quot (xmin box + xmax box) 2,
                        Z.quot (ymin box + ymax box) 2);
              PutData shown (azimuth_deg msg) (elevation_deg msg)
                      (Z.quot (xmin box + xmax box) 2,
                       Z.quot (ymin box + ymax box) 2 + 15) ])
    /\ (pf_eqb (range_m msg) (-999 # 1) = true -> shown = NaN)
    /\ (pf_eqb (range_m msg) (-999 # 1) = false -> shown = range_m msg).
Proof.
  intros Hh Hw. unfold targeting_box.
  rewrite (ratio_from_center_defined _ _ Hh).
  rewrite (ratio_from_center_defined _ _ Hw).
  rewrite !py_int_object_loc_pix.
  eexists (mkTarget _ _ _ _), _. split; [cbn; reflexivity|].
  cbn [range_m]. unfold overlay_range.
  split; intros ->; reflexivity.
Qed.

Lemma overlay_of_box_witness :
  exists msg shown,
    targeting_box (mkState true None None) vga_frame centred_box
    = Some (msg,
            [ Rectangle (295, 215) (345, 265);
              PutLabel "person" (320, 240);
              PutData shown (azimuth_deg msg) (elevation_deg msg)
                      (320, 255) ])
    /\ (pf_eqb (range_m msg) (-999 # 1) = true -> shown = NaN)
    /\ (pf_eqb (range_m msg) (-999 # 1) = false -> shown = range_m msg).
Proof.
  apply (overlay_of_box (mkState true None None) vga_frame centred_box);
    discriminate.
Defined.

Lemma targeting_box_three_ops (st : State) (img_msg : Image)
    (box : BoundingBox) (msg : TargetLocalization) (ops : list draw_op) :
  targeting_box st img_msg box = Some (msg, ops) ->
  List.length ops = 3%nat.
Proof.
  unfold targeting_box.
  destruct (ratio_from_center _ (height img_msg)); [|discriminate].
  destruct (ratio_from_center _ (width img_msg)); [|discriminate].
  intro H. injection H as _ <-. reflexivity.
Qed.

Lemma targeting_boxes_output (st : State) (img_msg : Image)
    (boxes : list BoundingBox) :
  height img_msg <> 0 -> width img_msg <> 0 ->
  publish_enable st = true ->
  forall cv2_image,
  exists msgs c,
    targeting_boxes st img_msg cv2_image boxes = (map TargetData msgs, Some c)
    /\ map name msgs = map Class boxes
    /\ frame c = frame cv2_image
    /\ List.length (drawn c)
       = (List.length (drawn cv2_image) + 3 * List.length boxes)%nat.
Proof.
  intros Hh Hw Hen. induction boxes as [|box rest IH]; intro cv2_image.
  - exists [], cv2_image. cbn. repeat split. lia.
  - destruct (targeting_box_defined st img_msg box Hh Hw)
      as (msg & ops & Hbox & Hname & _).
    destruct (IH (draw cv2_image ops)) as (msgs & c & Hrest & Hn & Hf & Hd).
    exists (msg :: msgs), c.
    cbn [targeting_boxes]. rewrite Hbox, Hrest.
    unfold publish. rewrite Hen. cbn [map app].
    rewrite Hname, Hn. repeat split; [exact Hf|].
    rewrite Hd. cbn [draw drawn List.length]. rewrite length_app.
    rewrite (targeting_box_three_ops _ _ _ _ _ Hbox). lia.
Qed.

(** X14: with the flag up, a frame of non-zero size publishes one record
    per held box, labelled and ordered as the boxes are, and after them
    one image: the incoming frame with three drawings per box. *)
Theorem frame_output_shape (st : State) (img_msg : Image) :
  height img_msg <> 0 -> width img_msg <> 0 ->
  publish_enable st = true ->
  exists msgs c,
    object_targeting_callback img_msg st
    = (map TargetData msgs ++ [TargetImage c], Returned)
    /\ map name msgs = map Class (held_boxes st)
    /\ frame c = img_msg
    /\ List.length (drawn c) = (3 * List.length (held_boxes st))%nat.
Proof.
  intros Hh Hw Hen.
  destruct (targeting_boxes_output st img_msg (held_boxes st) Hh Hw Hen
                                   (imgmsg_to_cv2 img_msg))
    as (msgs & c & Hrun & Hn & Hf & Hd).
  exists msgs, c. unfold object_targeting_callback. rewrite Hrun.
  unfold publish. rewrite Hen. repeat split; assumption.
Qed.

Lemma frame_output_shape_witness :
  exists msgs c,
    object_targeting_callback
      vga_frame (holding flat_depth [square_box; centred_box])
    = (map TargetData msgs ++ [TargetImage c], Returned)
    /\ map name msgs = ["cup"; "person"]%string
    /\ frame c = vga_frame
    /\ List.length (drawn c) = 6%nat.
Proof.
  apply (frame_output_shape (holding flat_depth [square_box; centred_box])
                            vga_frame).
  - discriminate.
  - discriminate.
  - reflexivity.
Defined.

(** * Detections arriving during a cycle *)

Lemma targeting_box_depth_only (st st' : State) (img_msg : Image)
    (box : BoundingBox) :
  np_depth_array_m st' = np_depth_array_m st ->
  targeting_box st' img_msg box = targeting_box st img_msg box.
Proof. intro Hd. unfold targeting_box. now rewrite Hd. Qed.

Lemma targeting_box_during_depth (st st161 st163 : State) (img_msg : Image)
    (box : BoundingBox) :
  np_depth_array_m st161 = np_depth_array_m st ->
  np_depth_array_m st163 = np_depth_array_m st ->
  targeting_box_during st161 st163 img_msg box = targeting_box st img_msg box.
Proof.
  intros H1 H3. unfold targeting_box_during. rewrite H1, H3.
  destruct (np_depth_array_m st) eqn:Hd.
  - apply targeting_box_depth_only. congruence.
  - apply targeting_box_depth_only. congruence.
Qed.

Lemma detection_events_keep (es : list event) :
  forall st,
    forallb is_detection_event es = true ->
    np_depth_array_m (handle_all es st) = np_depth_array_m st
    /\ publish_enable (handle_all es st) = publish_enable st.
Proof.
  induction es as [|e es IH]; intros st Hes; [split; reflexivity|].
  cbn [forallb] in Hes. apply andb_true_iff in Hes. destruct Hes as [He Hes].
  change (handle_all (e :: es) st) with (handle_all es (handle e st)).
  destruct (IH (handle e st) Hes) as [Hd Hf]. rewrite Hd, Hf.
  destruct e as [count| | |]; cbn in He |- *; try discriminate;
    try (split; reflexivity).
  unfold found_object_callback. destruct (count =? 0); split; reflexivity.
Qed.

Lemma detection_slots (arrivals : list (list event)) :
  forallb (forallb is_detection_event) arrivals = true ->
  forallb is_detection_event (hd [] arrivals) = true
  /\ forallb (forallb is_detection_event) (tl arrivals) = true.
Proof.
  destruct arrivals as [|es arrivals]; [split; reflexivity|].
  cbn. intro H. now apply andb_true_iff in H.
Qed.

Lemma during_detections_only (img_msg : Image) (boxes : list BoundingBox)
    (st : State) :
  forall st' cv2_image arrivals,
    np_depth_array_m st' = np_depth_array_m st ->
    publish_enable st' = publish_enable st ->
    forallb (forallb is_detection_event) arrivals = true ->
    (published
       (snd (fst (targeting_boxes_during st' img_msg cv2_image boxes
                                         arrivals))),
     snd (targeting_boxes_during st' img_msg cv2_image boxes arrivals))
    = match targeting_boxes st img_msg cv2_image boxes with
      | (out, Some c) => (out ++ publish st (TargetImage c), Returned)
      | (out, None) => (out, Raised)
      end.
Proof.
  induction boxes as [|box rest IH];
    intros st' cv2_image arrivals Hd Hf Harr;
    cbn [targeting_boxes_during targeting_boxes].
  all: destruct (detection_slots _ Harr) as [Hs1 Harr1].
  all: destruct (detection_slots _ Harr1) as [Hs2 Harr2].
  all: destruct (detection_events_keep _ st' Hs1) as [Hd1 Hf1].
  all: destruct (detection_events_keep
                   _ (handle_all (hd [] arrivals) st') Hs2) as [Hd2 Hf2].
  - cbn [fst snd].
    rewrite !published_app, !published_handled, published_publish_step.
    unfold publish. rewrite Hf1, Hf. now rewrite app_nil_r.
  - rewrite (targeting_box_during_depth st) by congruence.
    destruct (targeting_box st img_msg box) as [[msg ops]|].
    + destruct (detection_slots _ Harr2) as [Hs3 Harr3].
      destruct (detection_slots _ Harr3) as [Hs4 Harr4].
      destruct (detection_events_keep
                  _ (handle_all (hd [] (tl arrivals))
                       (handle_all (hd [] arrivals) st')) Hs3) as [Hd3 Hf3].
      destruct (detection_events_keep
                  _ (handle_all (hd [] (tl (tl arrivals)))
                       (handle_all (hd [] (tl arrivals))
                          (handle_all (hd [] arrivals) st'))) Hs4)
        as [Hd4 Hf4].
      specialize (IH (handle_all (hd [] (tl (tl (tl arrivals))))
                        (handle_all (hd [] (tl (tl arrivals)))
                           (handle_all (hd [] (tl arrivals))
                              (handle_all (hd [] arrivals) st'))))
                     (draw cv2_image ops) (tl (tl (tl (tl arrivals))))
                     ltac:(congruence) ltac:(congruence) Harr4).
      destruct (targeting_boxes_during _ img_msg (draw cv2_image ops) rest _)
        as [[st2 steps] oc].
      cbn [fst snd] in IH |- *.
      rewrite !published_app, !published_handled, published_publish_step.
      cbn [app].
      replace (publish _ (TargetData msg)) with (publish st (TargetData msg))
        by (unfold publish; now rewrite Hf3, Hf2, Hf1, Hf).
      destruct (targeting_boxes st img_msg (draw cv2_image ops) rest)
        as [out' [c|]]; injection IH as -> ->; now rewrite <- ?app_assoc.
    + cbn [fst snd]. now rewrite !published_app, !published_handled.
Qed.

(** X15: box messages and counts that arrive once the loop has started
    (after line 150) do not change what the frame publishes: the loop goes
    on over the boxes it started with, even after a zero count. *)
Theorem detections_after_loop_start_ignored (rest : list (list event))
    (img_msg : Image) (st : State) :
  forallb (forallb is_detection_event) rest = true ->
  published (snd (fst (object_targeting_during ([] :: rest) img_msg st)))
  = fst (object_targeting_callback img_msg st)
  /\ snd (object_targeting_during ([] :: rest) img_msg st)
     = snd (object_targeting_callback img_msg st).
Proof.
  intro Harr.
  unfold object_targeting_during, object_targeting_callback, held_boxes.
  cbn [hd tl handle_all fold_left handled map app].
  destruct (detect_boxes st) as [msg|].
  - pose proof (during_detections_only img_msg (bounding_boxes msg) st st
                  (imgmsg_to_cv2 img_msg) rest eq_refl eq_refl Harr) as H.
    destruct (targeting_boxes_during st img_msg _ _ rest) as [[st2 steps] oc].
    cbn [fst snd] in H |- *.
    destruct (targeting_boxes st img_msg (imgmsg_to_cv2 img_msg)
                              (bounding_boxes msg)) as [out [c|]];
      injection H as -> ->; split; reflexivity.
  - assert (Hall : forallb (forallb is_detection_event) ([] :: rest) = true)
      by exact Harr.
    pose proof (during_detections_only img_msg [] st st
                  (imgmsg_to_cv2 img_msg) ([] :: rest) eq_refl eq_refl Hall)
      as H.
    destruct (targeting_boxes_during st img_msg _ [] ([] :: rest))
      as [[st2 steps] oc].
    cbn [fst snd targeting_boxes] in H |- *.
    injection H as -> ->. split; reflexivity.
Qed.

Lemma detections_after_loop_start_ignored_witness :
  published
    (snd (fst (object_targeting_during
                 ([] :: [[]; [FoundObject 0]; [ObjectDetected (mkBoxes [])]])
                 vga_frame (holding flat_depth [square_box; centred_box]))))
  = fst (object_targeting_callback
           vga_frame (holding flat_depth [square_box; centred_box]))
  /\ snd (object_targeting_during
            ([] :: [[]; [FoundObject 0]; [ObjectDetected (mkBoxes [])]])
            vga_frame (holding flat_depth [square_box; centred_box]))
     = snd (object_targeting_callback
              vga_frame (holding flat_depth [square_box; centred_box])).
Proof.
  apply (detections_after_loop_start_ignored
           [[]; [FoundObject 0]; [ObjectDetected (mkBoxes [])]]
           vga_frame (holding flat_depth [square_box; centred_box])).
  reflexivity.
Defined.

(** X20: lines 149 and 150 read [detect_boxes] one after the other.  When
    a detection set is held at line 149 and what runs before line 150
    leaves none (a zero count with no box message after it), the handler
    raises there: the frame publishes no record and no image. *)
Theorem cleared_between_reads_raises (before : list event)
    (rest : list (list event)) (img_msg : Image) (st : State)
    (held : BoundingBoxes) :
  detect_boxes st = Some held ->
  detect_boxes (handle_all before st) = None ->
  published
    (snd (fst (object_targeting_during (before :: rest) img_msg st))) = []
  /\ snd (object_targeting_during (before :: rest) img_msg st) = Raised.
Proof.
  intros Hheld Hcleared. unfold object_targeting_during.
  rewrite Hheld. cbn [hd tl]. rewrite Hcleared. cbn [fst snd].
  now rewrite published_app, !published_handled.
Qed.

Lemma cleared_between_reads_raises_witness :
  published
    (snd (fst (object_targeting_during
                 ([FoundObject 0] :: []) vga_frame
                 (holding flat_depth [square_box])))) = []
  /\ snd (object_targeting_during
            ([FoundObject 0] :: []) vga_frame
            (holding flat_depth [square_box])) = Raised.
Proof.
  apply (cleared_between_reads_raises
           [FoundObject 0] [] vga_frame (holding flat_depth [square_box])
           (mkBoxes [square_box])).
  - reflexivity.
  - reflexivity.
Defined.

(** * Start-up *)

Lemma topic_listed_In (t : topic_entry) (topic_list : list topic_entry) :
  topic_listed t topic_list = true <-> In t topic_list.
Proof.
  unfold topic_listed. rewrite existsb_exists. split.
  - intros ([a b] & Hin & Heq). cbn in Heq.
    apply andb_true_iff in Heq. destruct Heq as [Ha Hb].
    apply String.eqb_eq in Ha, Hb. destruct t as [ta tb]. cbn in Ha, Hb.
    now subst.
  - intro Hin. exists t. split; [exact Hin|].
    now rewrite !String.eqb_refl.
Qed.

(** X16: start-up asks for the node to shut down exactly when the depth
    topic, with type sensor_msgs/Image, is not among the published topics.
    A missing camera topic only prints its message and sleeps; the reason
    given for the shutdown names the camera topic all the same. *)
Theorem shutdown_iff_depth_topic_missing (topic_list : list topic_entry) :
  (existsb is_signal_shutdown (initialize_actions topic_list) = true
   <-> ~ In (DEPTH_DATA_INPUT_TOPIC, "sensor_msgs/Image"%string) topic_list)
  /\ (forall reason,
         In (SignalShutdown reason) (initialize_actions topic_list) ->
         reason = "Camera topic not found"%string).
Proof.
  unfold initialize_actions.
  pose proof (topic_listed_In (DEPTH_DATA_INPUT_TOPIC,
                               "sensor_msgs/Image"%string) topic_list) as Hd.
  destruct (topic_listed (IMAGE_INPUT_TOPIC, _) topic_list);
    destruct (topic_listed (DEPTH_DATA_INPUT_TOPIC, _) topic_list);
    split.
  all: try (cbn; split; [discriminate | intro Hn; exfalso; apply Hn, Hd;
                                        reflexivity]).
  all: try (cbn; split; [intros _ Hin; apply Hd in Hin; discriminate
                        | reflexivity]).
  all: intros reason Hin; cbn in Hin;
    repeat (destruct Hin as [Hin | Hin]; [try discriminate|]);
    try contradiction; try (injection Hin as <-; reflexivity).
Qed.

(** X17: whatever topics are published, start-up ends by sleeping a
    second and sending one start request to the classifier, for the
    colour-image topic, the model common_object_detection and threshold
    0.5; this is done even after a shutdown was asked for. *)
Theorem classifier_always_started (topic_list : list topic_entry) :
  exists before,
    initialize_actions topic_list
    = before
      ++ [ Sleep 1;
           PrintLine ("Starting target detector: " ++ START_CLASSIFIER_TOPIC);
           StartClassifier (mkSelection IMAGE_INPUT_TOPIC
                                        "common_object_detection" (1 # 2));
           PrintLine "Detector initialization complete" ]
    /\ existsb is_start_classifier before = false.
Proof.
  unfold initialize_actions.
  destruct (topic_listed (IMAGE_INPUT_TOPIC, _) topic_list);
    destruct (topic_listed (DEPTH_DATA_INPUT_TOPIC, _) topic_list);
    eexists; (split; [rewrite !app_assoc; reflexivity | reflexivity]).
Qed.

(** * Conversion of depth frames *)

Lemma sanitize_finite_row (row : list Q) : map sanitize (map RawVal row) = row.
Proof. induction row as [|q row IH]; [reflexivity|]. cbn. now rewrite IH. Qed.

(** X18: the matrix stored for a depth frame has the frame's rows, each of
    the frame's length, and a frame with no NaN and no infinity is stored
    as it is. *)
Theorem depth_frame_conversion (st : State) :
  (forall depth_data,
      exists m,
        np_depth_array_m (get_depth_data_callback depth_data st) = Some m
        /\ map (@List.length Q) m = map (@List.length raw_depth) depth_data)
  /\ (forall finite : depth_matrix,
         np_depth_array_m
           (get_depth_data_callback (map (map RawVal) finite) st)
         = Some finite).
Proof.
  assert (Hfinite : forall finite : depth_matrix,
             map (map sanitize) (map (map RawVal) finite) = finite).
  { induction finite as [|row finite IH]; [reflexivity|].
    cbn. now rewrite sanitize_finite_row, IH. }
  split.
  - intro depth_data. eexists. split; [reflexivity|].
    induction depth_data as [|row depth_data IH]; [reflexivity|].
    cbn. now rewrite length_map, IH.
  - intro finite. cbn. now rewrite Hfinite.
Qed.

(** * Boxes across the top or left edge *)

Lemma py_slice_wrapped_empty {A : Type} (lo hi : Z) (l : list A) :
  lo < 0 -> 0 <= hi -> hi - lo <= Z.of_nat (List.length l) ->
  py_slice lo hi l = [].
Proof.
  intros Hlo Hhi Hspan. unfold py_slice, slice_index.
  destruct (Z.ltb_spec lo 0); [|lia].
  destruct (Z.ltb_spec hi 0); [lia|].
  replace (Z.to_nat _) with 0%nat by lia. reflexivity.
Qed.

(** X19: a negative bound counts from the far edge of the matrix (Python
    slicing), so a reduced box that starts above row 0 or left of column 0
    and ends inside a matrix at least as large as it is takes no sample at
    all, and the range is -999. *)
Theorem box_across_edge_not_ranged (m : depth_matrix) (a : AdjBox)
    (cols : nat) :
  Forall (fun row => List.length row = cols) m ->
  (xmin_adj a < 0 /\ 0 <= xmax_adj a
   /\ xmax_adj a - xmin_adj a <= Z.of_nat cols)
  \/ (ymin_adj a < 0 /\ 0 <= ymax_adj a
      /\ ymax_adj a - ymin_adj a <= Z.of_nat (List.length m)) ->
  flatten (depth_box m a) = []
  /\ target_range (Some m) a = INVALID_RANGE.
Proof.
  intros Hrect Hedge.
  assert (He : flatten (depth_box m a) = []).
  { unfold flatten, depth_box, crop.
    destruct Hedge as [(Hlo & Hhi & Hspan) | (Hlo & Hhi & Hspan)].
    - apply concat_all_nil, Forall_forall. intros row Hrow.
      apply in_map_iff in Hrow. destruct Hrow as (src & <- & Hsrc).
      assert (Hin : In src m) by (now apply py_slice_incl in Hsrc).
      rewrite Forall_forall in Hrect. specialize (Hrect _ Hin).
      apply py_slice_wrapped_empty; lia.
    - now rewrite py_slice_wrapped_empty. }
  split; [exact He|]. apply target_range_empty, He.
Qed.

Lemma box_across_edge_not_ranged_witness :
  flatten (depth_box flat_depth (mkAdj (-2) 1 5 7)) = []
  /\ target_range (Some flat_depth) (mkAdj (-2) 1 5 7) = INVALID_RANGE.
Proof.
  apply (box_across_edge_not_ranged flat_depth (mkAdj (-2) 1 5 7) 8).
  - repeat constructor.
  - left. cbn. lia.
Defined.
